(** * Grid CSV generator (GridBlueprint/Resources/grid_generator.py)

    A shallow embedding of the three functions of the script,
    [create_grid_csv], [get_user_input] and [main], together with the
    small part of the Python runtime they call ([str.endswith],
    [str.strip], [str.lower], [int], [input], [print], [open],
    [csv.writer], [os.path.getsize]).

    Text is modelled as [string], i.e. a sequence of 8-bit characters: a
    Python [str] holding ASCII text, and equally the bytes of its UTF-8
    encoding.  Python integers are unbounded, hence [Z].

    The script talks to a console and writes one file.  Both are part of
    an explicit [world] that every operation takes and returns: the lines
    still to be typed, what has been shown so far, the files on disk and
    the faults the disk will answer with.  Standard input is a finite
    list of events; reading past its end raises [EOFError], as [input]
    does at the end of a file.  The interrupt key is modelled where the
    script waits, at its prompts. *)

From Stdlib Require Import ZArith String Ascii List Lia Bool DecimalString.
From stdpp Require Import base strings gmap.

Open Scope string_scope.
Open Scope Z_scope.

(** ** Python string helpers *)

Module Py.

(** [str.endswith]: [suffix] is found at the very end of [s]. *)
Definition endswith (s suffix : string) : bool :=
  (String.length suffix <=? String.length s)%nat &&
  String.eqb
    (substring (String.length s - String.length suffix)
               (String.length suffix) s)
    suffix.

(** The characters [str.strip] removes (ASCII range). *)
Definition is_space (c : ascii) : bool :=
  let n := nat_of_ascii c in
  ((9 <=? n) && (n <=? 13) || (28 <=? n) && (n <=? 32))%nat.

Fixpoint lstrip (s : string) : string :=
  match s with
  | String c s' => if is_space c then lstrip s' else s
  | EmptyString => EmptyString
  end.

(** [rstrip] keeps a character when it is not a space or when something
    survives to its right. *)
Fixpoint rstrip (s : string) : string :=
  match s with
  | String c s' =>
      match rstrip s' with
      | EmptyString => if is_space c then EmptyString else String c EmptyString
      | t => String c t
      end
  | EmptyString => EmptyString
  end.

Definition strip (s : string) : string := rstrip (lstrip s).

(** [str.lower] on ASCII letters. *)
Definition lower_char (c : ascii) : ascii :=
  let n := nat_of_ascii c in
  if ((65 <=? n) && (n <=? 90))%nat then ascii_of_nat (n + 32) else c.

Fixpoint lower (s : string) : string :=
  match s with
  | String c s' => String (lower_char c) (lower s')
  | EmptyString => EmptyString
  end.

(** [str(n)] for an integer. *)
Definition str_of_int (n : Z) : string :=
  NilZero.string_of_int (Z.to_int n).

(** [list * n] for a one-element list: negative counts give the empty
    list. *)
Definition list_mul {A} (x : A) (n : Z) : list A := repeat x (Z.to_nat n).

(** [range(n)]. *)
Definition range (n : Z) : list Z := map Z.of_nat (seq 0 (Z.to_nat n)).

(** [s * n] for a string. *)
Definition str_mul (s : string) (n : Z) : string :=
  fold_right append EmptyString (list_mul s n).

(** The line feed, written [\n] in the script. *)
Definition nl : string := String "010" EmptyString.

(** [sep.join(xs)]. *)
Fixpoint join (sep : string) (xs : list string) : string :=
  match xs with
  | [] => EmptyString
  | [x] => x
  | x :: rest => x ++ sep ++ join sep rest
  end.

End Py.

(** ** Integers as text *)

Module PyInt.

Definition digit_val (c : ascii) : option Z :=
  let n := nat_of_ascii c in
  if ((48 <=? n) && (n <=? 57))%nat then Some (Z.of_nat (n - 48)) else None.

(** Decimal digits, single underscores allowed between two digits.
    [after_digit] tells whether the previous character was a digit. *)
Fixpoint parse_digits (acc : Z) (after_digit : bool) (s : string) : option Z :=
  match s with
  | EmptyString => if after_digit then Some acc else None
  | String c s' =>
      match digit_val c with
      | Some d => parse_digits (10 * acc + d) true s'
      | None =>
          if Ascii.eqb c "_" && after_digit
          then parse_digits acc false s'
          else None
      end
  end.

(** [int(s)] in base 10: surrounding white space is ignored, one sign
    is allowed.  [None] stands for the [ValueError] Python raises. *)
Definition parse (s : string) : option Z :=
  match Py.strip s with
  | String "-" t => option_map Z.opp (parse_digits 0 false t)
  | String "+" t => parse_digits 0 false t
  | t => parse_digits 0 false t
  end.

(** Thousands separators of the format specifier [:,]. *)
Fixpoint commas (digits : string) : string :=
  match digits with
  | String c rest =>
      let n := String.length rest in
      String c (if ((0 <? n) && (n mod 3 =? 0))%nat
                then "," ++ commas rest else commas rest)
  | EmptyString => EmptyString
  end.

(** [f"{n:,}"]. *)
Definition fmt_comma (n : Z) : string :=
  if n <? 0 then "-" ++ commas (Py.str_of_int (- n))
  else commas (Py.str_of_int n).

End PyInt.

(** ** The csv writer *)

Module Csv.

(** The dialect [csv.writer(csvfile, delimiter=';')] writes: the excel
    dialect with its delimiter replaced. *)
Definition delimiter : ascii := ";".
Definition quotechar : ascii := "034".
Definition lineterminator : string := String "013" (String "010" EmptyString).

Fixpoint contains (c : ascii) (s : string) : bool :=
  match s with
  | String d s' => Ascii.eqb c d || contains c s'
  | EmptyString => false
  end.

(** QUOTE_MINIMAL: a field is quoted when it holds the delimiter, the
    quote character or a character of the line terminator. *)
Fixpoint needs_quote (field : string) : bool :=
  match field with
  | String c rest =>
      Ascii.eqb c delimiter || Ascii.eqb c quotechar
      || contains c lineterminator || needs_quote rest
  | EmptyString => false
  end.

Fixpoint double_quotes (field : string) : string :=
  match field with
  | String c rest =>
      if Ascii.eqb c quotechar
      then String c (String c (double_quotes rest))
      else String c (double_quotes rest)
  | EmptyString => EmptyString
  end.

(** A row made of one empty field is written quoted. *)
Definition write_field (alone : bool) (field : string) : string :=
  if needs_quote field || (alone && String.eqb field EmptyString)
  then String quotechar (double_quotes field ++ String quotechar EmptyString)
  else field.

(** The text [writer.writerow(row)] hands to the file. *)
Definition writerow (row : list string) : string :=
  let alone := (List.length row =? 1)%nat in
  Py.join (String delimiter EmptyString) (map (write_field alone) row)
  ++ lineterminator.

End Csv.

(** ** The runtime: exceptions, console, file system *)

(** The exceptions the script can meet.  [KeyboardInterrupt] derives from
    [BaseException] only; the others derive from [Exception]. *)
Inductive exn : Type :=
| KeyboardInterrupt
| EOFError
| ValueError (msg : string)
| OSError (msg : string).

Definition is_Exception (e : exn) : bool :=
  match e with
  | KeyboardInterrupt => false
  | _ => true
  end.

Definition is_ValueError (e : exn) : bool :=
  match e with
  | ValueError _ => true
  | _ => false
  end.

Definition is_KeyboardInterrupt (e : exn) : bool :=
  match e with
  | KeyboardInterrupt => true
  | _ => false
  end.

(** [str(e)]. *)
Definition exn_str (e : exn) : string :=
  match e with
  | KeyboardInterrupt => EmptyString
  | EOFError => "EOF when reading a line"
  | ValueError msg => msg
  | OSError msg => msg
  end.

(** What the user does at a prompt: type a line (given without its line
    end) or press the interrupt key.  The end of the list is the end of
    standard input. *)
Inductive stdin_event : Type :=
| Line (s : string)
| CtrlC.

(** What reaches standard output: a [print]ed line or the prompt of an
    [input] call. *)
Inductive stdout_event : Type :=
| Printed (s : string)
| Prompted (s : string).

(** The world the script runs in.  [files] maps a path to the content of
    the file there.  [open_fault path] is the message of the [OSError]
    that opening [path] for writing raises, if it does; [write_fault path
    data] tells whether writing [data] to [path] fails, after how many
    characters and with which message. *)
Record world : Type := World {
  stdin : list stdin_event;
  stdout : list stdout_event;
  files : gmap string string;
  open_fault : string -> option string;
  write_fault : string -> string -> option (nat * string);
}.

Definition set_stdin (i : list stdin_event) (w : world) : world :=
  World i (stdout w) (files w) (open_fault w) (write_fault w).
Definition set_stdout (o : list stdout_event) (w : world) : world :=
  World (stdin w) o (files w) (open_fault w) (write_fault w).
Definition set_files (f : gmap string string) (w : world) : world :=
  World (stdin w) (stdout w) f (open_fault w) (write_fault w).

(** How a computation ends: with a value, with an exception, or cut off
    by the bound put on its loops. *)
Inductive outcome (A : Type) : Type :=
| Ret (a : A)
| Raise (e : exn)
| OutOfFuel.
Arguments Ret {A} a.
Arguments Raise {A} e.
Arguments OutOfFuel {A}.

Definition M (A : Type) : Type := world -> outcome A * world.

Definition ret {A} (a : A) : M A := fun w => (Ret a, w).
Definition raise {A} (e : exn) : M A := fun w => (Raise e, w).

Definition bind {A B} (m : M A) (k : A -> M B) : M B :=
  fun w =>
    match m w with
    | (Ret a, w') => k a w'
    | (Raise e, w') => (Raise e, w')
    | (OutOfFuel, w') => (OutOfFuel, w')
    end.

Notation "x <- m ;; k" := (bind m (fun x => k))
  (at level 100, m at next level, right associativity).
Notation "m ;; k" := (bind m (fun _ => k))
  (at level 100, right associativity).

(** [try: body  except <class> as e: handler e]. *)
Definition try_except {A} (body : M A) (catches : exn -> bool)
    (handler : exn -> M A) : M A :=
  fun w =>
    match body w with
    | (Raise e, w') => if catches e then handler e w' else (Raise e, w')
    | r => r
    end.

(** [print(s)]. *)
Definition print (s : string) : M unit :=
  fun w => (Ret tt, set_stdout (stdout w ++ [Printed s]) w).

(** [input(prompt)]. *)
Definition input (prompt : string) : M string :=
  fun w =>
    let w' := set_stdout (stdout w ++ [Prompted prompt]) w in
    match stdin w with
    | Line s :: rest => (Ret s, set_stdin rest w')
    | CtrlC :: rest => (Raise KeyboardInterrupt, set_stdin rest w')
    | [] => (Raise EOFError, w')
    end.

(** [int(s)]. *)
Definition int (s : string) : M Z :=
  match PyInt.parse s with
  | Some n => ret n
  | None => raise (ValueError ("invalid literal for int() with base 10: '" ++ s ++ "'"))
  end.

(** [with open(path, 'w', newline='', encoding='utf-8') as f: f.write(data)]:
    opening creates or empties the file; the file is closed on every way
    out of the block. *)
Definition write_file (path data : string) : M unit :=
  fun w =>
    match open_fault w path with
    | Some msg => (Raise (OSError msg), w)
    | None =>
        match write_fault w path data with
        | Some (n, msg) =>
            (Raise (OSError msg),
             set_files (<[path := substring 0 n data]> (files w)) w)
        | None => (Ret tt, set_files (<[path := data]> (files w)) w)
        end
    end.

(** [os.path.getsize(path)]. *)
Definition getsize (path : string) : M Z :=
  fun w =>
    match files w !! path with
    | Some data => (Ret (Z.of_nat (String.length data)), w)
    | None => (Raise (OSError ("[Errno 2] No such file or directory: '" ++ path ++ "'")), w)
    end.

(** [while True: body], where [body] says [Continue] for reaching the end
    of the block or a [continue], and [Break a] for a [break]. *)
Inductive loop_ctl (A : Type) : Type :=
| Continue
| Break (a : A).
Arguments Continue {A}.
Arguments Break {A} a.

Fixpoint while_true {A} (fuel : nat) (body : M (loop_ctl A)) : M A :=
  match fuel with
  | O => fun w => (OutOfFuel, w)
  | S fuel' =>
      c <- body;;
      match c with
      | Continue => while_true fuel' body
      | Break a => ret a
      end
  end.

(** Each turn of the script's loops reads standard input, so one more
    turn than there are events left is enough. *)
Definition while_input {A} (body : M (loop_ctl A)) : M A :=
  fun w => while_true (S (List.length (stdin w))) body w.

(** ** The script *)

(** [if not filename.endswith('.csv'): filename += '.csv'] *)
Definition csv_name (filename : string) : string :=
  if negb (Py.endswith filename ".csv") then filename ++ ".csv" else filename.

(** [grid_data]: one row of [width] zeros for every [row in range(height)]. *)
Definition grid_data (width height : Z) : list (list string) :=
  map (fun _ => Py.list_mul "0" width) (Py.range height).

(** [for row in grid_data: writer.writerow(row)]: the text sent to the
    file, row after row. *)
Definition csv_text (rows : list (list string)) : string :=
  fold_left (fun written row => written ++ Csv.writerow row) rows EmptyString.

(** The [filename] of the [except] branch is the one the first statement
    of the [try] block has already updated, an assignment that cannot
    raise. *)
Definition create_grid_csv (width height : Z) (filename : string) : M bool :=
  let filename := csv_name filename in
  try_except
    (let grid_data := grid_data width height in
     write_file filename (csv_text grid_data);;
     print ("Successfully created " ++ filename ++ " (" ++ Py.str_of_int width
            ++ "x" ++ Py.str_of_int height ++ " grid)");;
     size <- getsize filename;;
     print ("File size: " ++ Py.str_of_int size ++ " bytes");;
     ret true)
    is_Exception
    (fun e =>
       print ("Error creating " ++ filename ++ ": " ++ exn_str e);;
       ret false).

(** [confirm.lower() != 'y'] *)
Definition declines (confirm : string) : bool :=
  negb (String.eqb (Py.lower confirm) "y").

(** The two [while True] loops of [get_user_input] differ in their texts
    only: [ask] is the prompt, [Name] begins the complaint about a value
    that is not positive, [things] names what a large grid has many of.
    [dimension_turn] is one pass through the [try] statement. *)
Definition dimension_turn (ask Name things : string) : M (loop_ctl Z) :=
  try_except
    (line <- input ask;;
     value <- int line;;
     if value <=? 0 then
       print (Name ++ " must be greater than 0");;
       ret Continue
     else if 1000 <? value then
       confirm <- input ("Large grid (" ++ Py.str_of_int value ++ " " ++ things
                         ++ "). Continue? (y/n): ");;
       if declines confirm then ret Continue else ret (Break value)
     else ret (Break value))
    is_ValueError
    (fun _ => print "Please enter a valid number";; ret Continue).

Definition read_dimension (ask Name things : string) : M Z :=
  while_input (dimension_turn ask Name things).

Definition read_width : M Z :=
  read_dimension "Enter grid width (columns): " "Width" "columns".
Definition read_height : M Z :=
  read_dimension "Enter grid height (rows): " "Height" "rows".

Definition default_filename (width height : Z) : string :=
  "grid_" ++ Py.str_of_int width ++ "x" ++ Py.str_of_int height ++ ".csv".

(** The result is [Some (width, height, filename)], or [None] for the
    script's [(None, None, None)]. *)
Definition get_user_input : M (option (Z * Z * string)) :=
  try_except
    (print "Fire Simulation - Grid CSV Generator";;
     print (Py.str_mul "=" 50);;
     print "This tool creates empty grid files for the Fire simulation.";;
     print "All cells will be filled with zeros (empty) - the FireLayer will";;
     print ("generate trees based on the density parameter in config.json." ++ Py.nl);;
     width <- read_width;;
     height <- read_height;;
     let default_filename := default_filename width height in
     print (Py.nl ++ "Suggested filename: " ++ default_filename);;
     answer <- input "Enter filename (or press Enter for default): ";;
     let filename := Py.strip answer in
     let filename :=
       if String.eqb filename EmptyString then default_filename else filename in
     let total_cells := width * height in
     let estimated_size := total_cells * 2 in
     print (Py.nl ++ "Grid Summary:");;
     print ("   Dimensions: " ++ Py.str_of_int width ++ " x " ++ Py.str_of_int height);;
     print ("   Total cells: " ++ PyInt.fmt_comma total_cells);;
     print ("   Estimated file size: ~" ++ PyInt.fmt_comma estimated_size ++ " bytes");;
     print ("   Output file: " ++ filename);;
     confirm <- input (Py.nl ++ "Create this grid file? (y/n): ");;
     if declines confirm then
       print "Operation cancelled";;
       ret None
     else ret (Some (width, height, filename)))
    is_KeyboardInterrupt
    (fun _ =>
       print (Py.nl ++ "Operation cancelled by user");;
       ret None).

(** [width is not None] holds exactly when [get_user_input] gave values. *)
Definition main : M unit :=
  try_except
    (r <- get_user_input;;
     match r with
     | Some (width, height, filename) =>
         create_grid_csv width height filename;;
         ret tt
     | None => print "Goodbye!"
     end)
    (fun e => is_KeyboardInterrupt e || is_Exception e)
    (fun e =>
       if is_KeyboardInterrupt e then print (Py.nl ++ "Goodbye!")
       else print ("Unexpected error: " ++ exn_str e)).

(** A world with the given keyboard input, nothing on the screen, no
    files and no faults. *)
Definition quiet_world (keys : list stdin_event) : world :=
  World keys [] ∅ (fun _ => None) (fun _ _ => None).

(** ** Reading a grid file back

    What a reader of the file sees: its lines, ended by a line feed, a
    carriage return or both, and the fields of a line. *)

Module Text.

(** [s.split(sep)] for a one-character separator. *)
Fixpoint split (sep : ascii) (s : string) : list string :=
  match s with
  | EmptyString => [EmptyString]
  | String c s' =>
      if Ascii.eqb c sep then EmptyString :: split sep s'
      else match split sep s' with
           | [] => [String c EmptyString]
           | field :: fields => String c field :: fields
           end
  end.




End Text.


(** Nothing stands in the way of writing to [path]. *)
Definition no_fault (w : world) (path : string) : Prop :=
  open_fault w path = None /\ forall data, write_fault w path data = None.

Definition success_report (width height : Z) (path : string) : list stdout_event :=
  [Printed ("Successfully created " ++ path ++ " (" ++ Py.str_of_int width
            ++ "x" ++ Py.str_of_int height ++ " grid)");
   Printed ("File size: "
            ++ Py.str_of_int
                 (Z.of_nat (String.length (csv_text (grid_data width height))))
            ++ " bytes")].

Definition failure_report (path cause : string) : list stdout_event :=
  [Printed ("Error creating " ++ path ++ ": " ++ cause)].

(** A world where no file can be opened for writing. *)
Definition read_only_world : world :=
  World [] [] ∅ (fun _ => Some "[Errno 13] Permission denied") (fun _ _ => None).

(** The world [w] once the keyboard input is down to [rest] and [shown]
    has been added to the screen. *)
Definition after (w : world) (rest : list stdin_event)
    (shown : list stdout_event) : world :=
  World rest (stdout w ++ shown) (files w) (open_fault w) (write_fault w).

(** [w'] comes after [w] in a run that only used the console: the disk
    is the same, the keyboard input has lost [typed] and the screen has
    gained [shown]. *)
Definition console_run (w w' : world) (typed : list stdin_event)
    (shown : list stdout_event) : Prop :=
  stdin w = (typed ++ stdin w')%list
  /\ stdout w' = (stdout w ++ shown)%list
  /\ files w' = files w
  /\ open_fault w' = open_fault w
  /\ write_fault w' = write_fault w.

(** The prompt of the confirmation asked for a large dimension. *)
Definition large_prompt (value : Z) (things : string) : string :=
  "Large grid (" ++ Py.str_of_int value ++ " " ++ things ++ "). Continue? (y/n): ".

(** One pass through the [try] statement of a dimension loop, as a step
    from the world before to an outcome and the world after: the cases of
    [dimension_turn], told apart by what the user types. *)
Inductive turn_step (ask Name things : string) (w : world) :
    outcome (loop_ctl Z) -> world -> Prop :=
| step_eof :
    stdin w = [] ->
    turn_step ask Name things w (Raise EOFError) (after w [] [Prompted ask])
| step_interrupt rest :
    stdin w = CtrlC :: rest ->
    turn_step ask Name things w (Raise KeyboardInterrupt)
      (after w rest [Prompted ask])
| step_invalid s rest :
    stdin w = Line s :: rest ->
    PyInt.parse s = None ->
    turn_step ask Name things w (Ret Continue)
      (after w rest [Prompted ask; Printed "Please enter a valid number"])
| step_not_positive s v rest :
    stdin w = Line s :: rest ->
    PyInt.parse s = Some v ->
    v <= 0 ->
    turn_step ask Name things w (Ret Continue)
      (after w rest [Prompted ask; Printed (Name ++ " must be greater than 0")])
| step_small s v rest :
    stdin w = Line s :: rest ->
    PyInt.parse s = Some v ->
    0 < v <= 1000 ->
    turn_step ask Name things w (Ret (Break v)) (after w rest [Prompted ask])
| step_large_eof s v :
    stdin w = [Line s] ->
    PyInt.parse s = Some v ->
    1000 < v ->
    turn_step ask Name things w (Raise EOFError)
      (after w [] [Prompted ask; Prompted (large_prompt v things)])
| step_large_interrupt s v rest :
    stdin w = Line s :: CtrlC :: rest ->
    PyInt.parse s = Some v ->
    1000 < v ->
    turn_step ask Name things w (Raise KeyboardInterrupt)
      (after w rest [Prompted ask; Prompted (large_prompt v things)])
| step_large_declined s c v rest :
    stdin w = Line s :: Line c :: rest ->
    PyInt.parse s = Some v ->
    1000 < v ->
    declines c = true ->
    turn_step ask Name things w (Ret Continue)
      (after w rest [Prompted ask; Prompted (large_prompt v things)])
| step_large_confirmed s c v rest :
    stdin w = Line s :: Line c :: rest ->
    PyInt.parse s = Some v ->
    1000 < v ->
    declines c = false ->
    turn_step ask Name things w (Ret (Break v))
      (after w rest [Prompted ask; Prompted (large_prompt v things)]).

(** [get_user_input] up to the point where the file name is asked for:
    the opening lines and the two dimension loops. *)
Definition ask_dimensions : M (Z * Z) :=
  print "Fire Simulation - Grid CSV Generator";;
  print (Py.str_mul "=" 50);;
  print "This tool creates empty grid files for the Fire simulation.";;
  print "All cells will be filled with zeros (empty) - the FireLayer will";;
  print ("generate trees based on the density parameter in config.json." ++ Py.nl);;
  width <- read_width;;
  height <- read_height;;
  ret (width, height).

(** The file name [get_user_input] settles on for a given answer. *)
Definition chosen_filename (width height : Z) (answer : string) : string :=
  if String.eqb (Py.strip answer) EmptyString
  then default_filename width height
  else Py.strip answer.

(** What [get_user_input] shows between the dimension loops and the
    reading of the last answer. *)
Definition filename_dialogue (width height : Z) : list stdout_event :=
  [Printed (Py.nl ++ "Suggested filename: " ++ default_filename width height);
   Prompted "Enter filename (or press Enter for default): "].

Definition summary (width height : Z) (filename : string) : list stdout_event :=
  [Printed (Py.nl ++ "Grid Summary:");
   Printed ("   Dimensions: " ++ Py.str_of_int width ++ " x " ++ Py.str_of_int height);
   Printed ("   Total cells: " ++ PyInt.fmt_comma (width * height));
   Printed ("   Estimated file size: ~" ++ PyInt.fmt_comma (width * height * 2)
            ++ " bytes");
   Printed ("   Output file: " ++ filename);
   Prompted (Py.nl ++ "Create this grid file? (y/n): ")].

(** The opening lines of [get_user_input]. *)
Definition banner : list stdout_event :=
  [Printed "Fire Simulation - Grid CSV Generator";
   Printed (Py.str_mul "=" 50);
   Printed "This tool creates empty grid files for the Fire simulation.";
   Printed "All cells will be filled with zeros (empty) - the FireLayer will";
   Printed ("generate trees based on the density parameter in config.json." ++ Py.nl)].



(** The ways [get_user_input] can go, told apart by how the dimension
    loops end and by what is typed at the two prompts after them. *)
Inductive prompt_run (w0 : world) :
    outcome (option (Z * Z * string)) -> world -> Prop :=
| run_dimensions_interrupted w1 :
    ask_dimensions w0 = (Raise KeyboardInterrupt, w1) ->
    prompt_run w0 (Ret None)
      (after w1 (stdin w1) [Printed (Py.nl ++ "Operation cancelled by user")])
| run_dimensions_eof w1 :
    ask_dimensions w0 = (Raise EOFError, w1) ->
    prompt_run w0 (Raise EOFError) w1
| run_filename_eof width height w2 :
    ask_dimensions w0 = (Ret (width, height), w2) ->
    stdin w2 = [] ->
    prompt_run w0 (Raise EOFError) (after w2 [] (filename_dialogue width height))
| run_filename_interrupted width height w2 rest :
    ask_dimensions w0 = (Ret (width, height), w2) ->
    stdin w2 = CtrlC :: rest ->
    prompt_run w0 (Ret None)
      (after w2 rest
         (filename_dialogue width height
          ++ [Printed (Py.nl ++ "Operation cancelled by user")]))
| run_confirmation_eof width height w2 answer :
    ask_dimensions w0 = (Ret (width, height), w2) ->
    stdin w2 = [Line answer] ->
    prompt_run w0 (Raise EOFError)
      (after w2 []
         (filename_dialogue width height
          ++ summary width height (chosen_filename width height answer)))
| run_confirmation_interrupted width height w2 answer rest :
    ask_dimensions w0 = (Ret (width, height), w2) ->
    stdin w2 = Line answer :: CtrlC :: rest ->
    prompt_run w0 (Ret None)
      (after w2 rest
         (filename_dialogue width height
          ++ summary width height (chosen_filename width height answer)
          ++ [Printed (Py.nl ++ "Operation cancelled by user")]))
| run_declined width height w2 answer c rest :
    ask_dimensions w0 = (Ret (width, height), w2) ->
    stdin w2 = Line answer :: Line c :: rest ->
    declines c = true ->
    prompt_run w0 (Ret None)
      (after w2 rest
         (filename_dialogue width height
          ++ summary width height (chosen_filename width height answer)
          ++ [Printed "Operation cancelled"]))
| run_confirmed width height w2 answer c rest :
    ask_dimensions w0 = (Ret (width, height), w2) ->
    stdin w2 = Line answer :: Line c :: rest ->
    declines c = false ->
    prompt_run w0
      (Ret (Some (width, height, chosen_filename width height answer)))
      (after w2 rest
         (filename_dialogue width height
          ++ summary width height (chosen_filename width height answer))).

(** ** Proof steps

    Running one turn of a dimension loop, and running the prompt up to
    its first loop. *)

Ltac run_turn :=
  unfold dimension_turn, try_except, bind, input, int, print, ret, raise,
    after, set_stdin, set_stdout; simpl.

Ltac run_prompt :=
  unfold get_user_input, ask_dimensions, try_except, bind, print, ret;
  simpl;
  match goal with
  | |- context [read_width ?w] => generalize w; intros ?
  end.

(** * Properties *)

(** ** The helpers at work *)

Example endswith_ex1 : Py.endswith "grid.csv" ".csv" = true.
Proof. reflexivity. Qed.

Example endswith_ex2 : Py.endswith "csv" ".csv" = false.
Proof. reflexivity. Qed.

Example strip_ex : Py.strip "  a b	 " = "a b".
Proof. reflexivity. Qed.

Example lower_ex : Py.lower "Y es" = "y es".
Proof. reflexivity. Qed.

Example str_ex : Py.str_of_int 1200 = "1200" /\ Py.str_of_int (-7) = "-7" /\ Py.str_of_int 0 = "0".
Proof. repeat split; reflexivity. Qed.

Example parse_ex :
  PyInt.parse " 12 " = Some 12 /\ PyInt.parse "-3" = Some (-3) /\
  PyInt.parse "+1_000" = Some 1000 /\ PyInt.parse "1__0" = None /\
  PyInt.parse "abc" = None /\ PyInt.parse EmptyString = None /\
  PyInt.parse "1.5" = None /\ PyInt.parse "007" = Some 7 /\
  PyInt.parse "- 5" = None /\ PyInt.parse "5_" = None.
Proof. repeat split; reflexivity. Qed.

Example fmt_comma_ex :
  PyInt.fmt_comma 1234567 = "1,234,567" /\ PyInt.fmt_comma 50 = "50" /\
  PyInt.fmt_comma 1000 = "1,000" /\ PyInt.fmt_comma (-123456) = "-123,456".
Proof. repeat split; reflexivity. Qed.

Example writerow_ex :
  Csv.writerow ["0"; "0"; "0"] = "0;0;0" ++ Csv.lineterminator /\
  Csv.writerow ["a;b"; "c"]
  = String "034" "a;b" ++ String "034" ";c" ++ Csv.lineterminator /\
  Csv.writerow [] = Csv.lineterminator.
Proof. repeat split; reflexivity. Qed.

(** ** Text *)

Lemma str_app_cons (c : ascii) (s t : string) :
  String c s ++ t = String c (s ++ t).
Proof. reflexivity. Qed.

Lemma str_app_nil_l (s : string) : EmptyString ++ s = s.
Proof. reflexivity. Qed.

Lemma str_app_nil_r (s : string) : s ++ EmptyString = s.
Proof.
  induction s as [|c s IH]; [reflexivity|].
  now rewrite str_app_cons, IH.
Qed.


Lemma str_length_app (s t : string) :
  String.length (s ++ t) = (String.length s + String.length t)%nat.
Proof.
  induction s as [|c s IH]; [reflexivity|].
  rewrite str_app_cons. simpl. now rewrite IH.
Qed.

Lemma substring_all (s : string) : substring 0 (String.length s) s = s.
Proof. induction s as [|c s IH]; simpl; [reflexivity | now rewrite IH]. Qed.

Lemma substring_drop (p s : string) (n : nat) :
  substring (String.length p) n (p ++ s) = substring 0 n s.
Proof.
  induction p as [|c p IH]; [reflexivity|].
  rewrite str_app_cons. exact IH.
Qed.

Lemma substring_split (n : nat) (s : string) :
  (n <= String.length s)%nat ->
  s = substring 0 n s ++ substring n (String.length s - n) s.
Proof.
  revert n. induction s as [|c s IH]; intros n H; simpl in *.
  - destruct n; [reflexivity | lia].
  - destruct n; simpl.
    + now rewrite str_app_nil_l, substring_all.
    + rewrite str_app_cons. f_equal. apply IH. lia.
Qed.

(** [endswith] says what it should: the string is something followed by
    the suffix. *)
Lemma endswith_spec (s suffix : string) :
  Py.endswith s suffix = true <-> exists p, s = p ++ suffix.
Proof.
  unfold Py.endswith. rewrite andb_true_iff, Nat.leb_le, String.eqb_eq. split.
  - intros [Hle Hsub].
    exists (substring 0 (String.length s - String.length suffix) s).
    pose proof (substring_split (String.length s - String.length suffix) s) as E.
    replace (String.length s - (String.length s - String.length suffix))%nat
      with (String.length suffix) in E by lia.
    rewrite Hsub in E. apply E. lia.
  - intros [p ->]. rewrite str_length_app. split; [lia|].
    replace (String.length p + String.length suffix - String.length suffix)%nat
      with (String.length p) by lia.
    rewrite substring_drop. apply substring_all.
Qed.

Lemma endswith_app (p suffix : string) : Py.endswith (p ++ suffix) suffix = true.
Proof. apply endswith_spec. now exists p. Qed.

Example split_ex : Text.split ";" "a;;b" = ["a"; EmptyString; "b"].
Proof. reflexivity. Qed.






(** ** The text of the grid *)









(** ** The Grid Writer *)

Lemma create_grid_csv_ok (width height : Z) (filename : string) (w : world) :
  no_fault w (csv_name filename) ->
  create_grid_csv width height filename w
  = (Ret true,
     World (stdin w)
           (stdout w ++ success_report width height (csv_name filename))
           (<[csv_name filename := csv_text (grid_data width height)]> (files w))
           (open_fault w) (write_fault w)).
Proof.
  intros [Hopen Hwrite].
  unfold create_grid_csv, try_except, bind, write_file, print, getsize, ret.
  rewrite Hopen, Hwrite. simpl.
  rewrite lookup_insert_eq. simpl.
  now rewrite <- List.app_assoc.
Qed.

Lemma create_grid_csv_open_fault (width height : Z) (filename cause : string)
    (w : world) :
  open_fault w (csv_name filename) = Some cause ->
  create_grid_csv width height filename w
  = (Ret false,
     set_stdout (stdout w ++ failure_report (csv_name filename) cause) w).
Proof.
  intros Hopen.
  unfold create_grid_csv, try_except, bind, write_file, print, ret.
  rewrite Hopen. reflexivity.
Qed.

Lemma create_grid_csv_write_fault (width height : Z) (filename cause : string)
    (n : nat) (w : world) :
  open_fault w (csv_name filename) = None ->
  write_fault w (csv_name filename) (csv_text (grid_data width height))
  = Some (n, cause) ->
  create_grid_csv width height filename w
  = (Ret false,
     World (stdin w)
           (stdout w ++ failure_report (csv_name filename) cause)
           (<[csv_name filename
              := substring 0 n (csv_text (grid_data width height))]> (files w))
           (open_fault w) (write_fault w)).
Proof.
  intros Hopen Hwrite.
  unfold create_grid_csv, try_except, bind, write_file, print, ret.
  rewrite Hopen, Hwrite. reflexivity.
Qed.

(** The writer always comes back with a boolean, and leaves the keyboard
    input and every file but its target alone. *)
Lemma create_grid_csv_returns (width height : Z) (filename : string) (w : world) :
  exists (b : bool) (w' : world),
    create_grid_csv width height filename w = (Ret b, w')
    /\ stdin w' = stdin w
    /\ forall path, path <> csv_name filename ->
                    files w' !! path = files w !! path.
Proof.
  destruct (open_fault w (csv_name filename)) as [cause|] eqn:Hopen.
  { eexists _, _. split; [apply create_grid_csv_open_fault; exact Hopen|].
    split; [reflexivity|]. reflexivity. }
  destruct (write_fault w (csv_name filename) (csv_text (grid_data width height)))
    as [[n cause]|] eqn:Hwrite.
  { eexists _, _. split; [eapply create_grid_csv_write_fault; eassumption|].
    split; [reflexivity|]. intros path Hne. simpl.
    now rewrite lookup_insert_ne. }
  unfold create_grid_csv, try_except, bind, write_file, print, getsize, ret.
  rewrite Hopen, Hwrite. simpl. rewrite lookup_insert_eq. simpl.
  eexists _, _. split; [reflexivity|]. split; [reflexivity|].
  intros path Hne. simpl. now rewrite lookup_insert_ne.
Qed.

Lemma csv_name_cases (filename : string) :
  csv_name filename
  = if Py.endswith filename ".csv" then filename else filename ++ ".csv".
Proof. unfold csv_name. now destruct (Py.endswith filename ".csv"). Qed.

Lemma csv_name_endswith (filename : string) :
  Py.endswith (csv_name filename) ".csv" = true.
Proof.
  rewrite csv_name_cases.
  destruct (Py.endswith filename ".csv") eqn:E; [exact E | apply endswith_app].
Qed.

Lemma create_grid_csv_files (width height : Z) (filename : string) (w : world) :
  files (snd (create_grid_csv width height filename w))
  = match open_fault w (csv_name filename) with
    | Some _ => files w
    | None =>
        let text := csv_text (grid_data width height) in
        <[csv_name filename :=
            match write_fault w (csv_name filename) text with
            | Some (n, _) => substring 0 n text
            | None => text
            end]> (files w)
    end.
Proof.
  unfold create_grid_csv, try_except, bind, write_file, print, getsize, ret.
  destruct (open_fault w (csv_name filename)) as [cause|]; [reflexivity|].
  destruct (write_fault w (csv_name filename) (csv_text (grid_data width height)))
    as [[n cause]|]; [reflexivity|].
  simpl. rewrite lookup_insert_eq. reflexivity.
Qed.




(** C2, as the claim has it, fails: the two rows of the 3 by 2 grid
    written for the name [test] are not ended by a lone line feed. *)
Lemma test_file_not_line_feed_ended :
  files (snd (create_grid_csv 3 2 "test" (quiet_world []))) !! "test.csv"
  <> Some ("0;0;0" ++ Py.nl ++ "0;0;0" ++ Py.nl).
Proof. vm_compute. discriminate. Qed.

(** C2, amended: width 3, height 2 and the name [test] give a file named
    [test.csv] holding exactly the two lines [0;0;0], each ended by a
    carriage return and a line feed. *)
Theorem test_file_content (w : world) :
  no_fault w "test.csv" ->
  exists w' : world,
    create_grid_csv 3 2 "test" w = (Ret true, w')
    /\ files w'
       = <["test.csv" := "0;0;0" ++ String "013" Py.nl
                         ++ "0;0;0" ++ String "013" Py.nl]> (files w).
Proof.
  intros Hok. eexists. split; [now apply create_grid_csv_ok|]. reflexivity.
Qed.

Lemma test_file_content_witness :
  exists w' : world,
    create_grid_csv 3 2 "test" (quiet_world []) = (Ret true, w')
    /\ files w'
       = <["test.csv" := "0;0;0" ++ String "013" Py.nl
                         ++ "0;0;0" ++ String "013" Py.nl]> ∅.
Proof. apply (test_file_content (quiet_world [])). split; reflexivity. Defined.

(** C3: the writer always returns a boolean, never an exception.  When
    opening the target fails, or the write itself does, it returns
    [False] after printing one line that holds the target name, which
    begins with the name it was given, and the cause. *)
Theorem write_failure_is_reported (width height : Z) (filename : string)
    (w : world) :
  (exists (b : bool) (w' : world),
      create_grid_csv width height filename w = (Ret b, w'))
  /\ (exists ext, csv_name filename = filename ++ ext)
  /\ (forall cause,
        open_fault w (csv_name filename) = Some cause ->
        exists w',
          create_grid_csv width height filename w = (Ret false, w')
          /\ stdout w'
             = (stdout w ++ [Printed ("Error creating " ++ csv_name filename
                                      ++ ": " ++ cause)])%list
          /\ files w' = files w)
  /\ (forall n cause,
        open_fault w (csv_name filename) = None ->
        write_fault w (csv_name filename) (csv_text (grid_data width height))
        = Some (n, cause) ->
        exists w',
          create_grid_csv width height filename w = (Ret false, w')
          /\ stdout w'
             = (stdout w ++ [Printed ("Error creating " ++ csv_name filename
                                      ++ ": " ++ cause)])%list).
Proof.
  split.
  { destruct (create_grid_csv_returns width height filename w)
      as (b & w' & E & _). now exists b, w'. }
  split.
  { rewrite csv_name_cases. destruct (Py.endswith filename ".csv").
    - exists EmptyString. now rewrite str_app_nil_r.
    - now exists ".csv". }
  split.
  - intros cause Hopen. eexists. split.
    + apply create_grid_csv_open_fault. exact Hopen.
    + split; reflexivity.
  - intros n cause Hopen Hwrite. eexists. split.
    + eapply create_grid_csv_write_fault; eassumption.
    + reflexivity.
Qed.

Lemma write_failure_is_reported_witness :
  exists w',
    create_grid_csv 3 2 "nowhere/test" read_only_world = (Ret false, w')
    /\ stdout w'
       = (stdout read_only_world
          ++ [Printed ("Error creating " ++ csv_name "nowhere/test"
                       ++ ": " ++ "[Errno 13] Permission denied")])%list
    /\ files w' = files read_only_world.
Proof.
  exact (proj1 (proj2 (proj2
           (write_failure_is_reported 3 2 "nowhere/test" read_only_world)))
           "[Errno 13] Permission denied" eq_refl).
Defined.

(** C5: the writer's target is the given name when that ends in [.csv],
    and the given name followed by one [.csv] otherwise; either way it
    ends in [.csv], and it is the one path whose file the writer sets. *)
Theorem csv_suffix_once (filename : string) :
  (Py.endswith filename ".csv" = true <-> exists stem, filename = stem ++ ".csv")
  /\ csv_name filename
     = (if Py.endswith filename ".csv" then filename else filename ++ ".csv")
  /\ (exists stem, csv_name filename = stem ++ ".csv")
  /\ forall (width height : Z) (w : world),
       files (snd (create_grid_csv width height filename w))
       = match open_fault w (csv_name filename) with
         | Some _ => files w
         | None =>
             let text := csv_text (grid_data width height) in
             <[csv_name filename :=
                 match write_fault w (csv_name filename) text with
                 | Some (n, _) => substring 0 n text
                 | None => text
                 end]> (files w)
         end.
Proof.
  split; [apply endswith_spec|].
  split; [apply csv_name_cases|].
  split; [apply endswith_spec, csv_name_endswith|].
  intros width height w. apply create_grid_csv_files.
Qed.

(** ** Loops that read *)

Section Loop.
Context {A : Type} (body : M (loop_ctl A)).

(** A turn that asks for another one has read something. *)
Hypothesis body_reads :
  forall w w', body w = (Ret Continue, w') ->
               (List.length (stdin w') < List.length (stdin w))%nat.

Lemma while_true_enough (fuel1 fuel2 : nat) (w : world) :
  (List.length (stdin w) < fuel1)%nat ->
  (List.length (stdin w) < fuel2)%nat ->
  while_true fuel1 body w = while_true fuel2 body w.
Proof.
  revert fuel2 w. induction fuel1 as [|fuel1 IH]; intros fuel2 w H1 H2; [lia|].
  destruct fuel2 as [|fuel2]; [lia|].
  simpl. unfold bind.
  destruct (body w) as [[[|a]|e|] w'] eqn:E; try reflexivity.
  apply body_reads in E. apply IH; lia.
Qed.

(** The loop, one turn at a time. *)
Lemma while_input_turn (w : world) :
  while_input body w
  = match body w with
    | (Ret Continue, w') => while_input body w'
    | (Ret (Break a), w') => (Ret a, w')
    | (Raise e, w') => (Raise e, w')
    | (OutOfFuel, w') => (OutOfFuel, w')
    end.
Proof.
  unfold while_input at 1. simpl. unfold bind.
  destruct (body w) as [[[|a]|e|] w'] eqn:E; try reflexivity.
  apply body_reads in E. unfold while_input. apply while_true_enough; lia.
Qed.

(** What holds of every turn and composes holds of the loop. *)
Lemma while_input_ind (P : world -> outcome A -> world -> Prop) :
  (forall w a w', body w = (Ret (Break a), w') -> P w (Ret a) w') ->
  (forall w e w', body w = (Raise e, w') -> P w (Raise e) w') ->
  (forall w w', body w = (OutOfFuel, w') -> P w OutOfFuel w') ->
  (forall w w1 r w',
      body w = (Ret Continue, w1) -> P w1 r w' -> P w r w') ->
  forall w, P w (fst (while_input body w)) (snd (while_input body w)).
Proof.
  intros Hbreak Hraise Hfuel Hcont w.
  remember (List.length (stdin w)) as n eqn:Hn.
  revert w Hn. induction n as [n IH] using lt_wf_ind. intros w Hn.
  rewrite while_input_turn.
  destruct (body w) as [[[|a]|e|] w'] eqn:E; simpl.
  - eapply Hcont; [exact E|].
    eapply IH; [|reflexivity]. apply body_reads in E. lia.
  - now apply Hbreak.
  - now apply Hraise.
  - now apply Hfuel.
Qed.

End Loop.

(** ** One turn of a dimension loop *)

Section Dimension.
Variables ask Name things : string.

Lemma turn_eof (w : world) :
  stdin w = [] ->
  dimension_turn ask Name things w = (Raise EOFError, after w [] [Prompted ask]).
Proof. intros Hin. run_turn. rewrite Hin. reflexivity. Qed.

Lemma turn_interrupt (w : world) (rest : list stdin_event) :
  stdin w = CtrlC :: rest ->
  dimension_turn ask Name things w
  = (Raise KeyboardInterrupt, after w rest [Prompted ask]).
Proof. intros Hin. run_turn. rewrite Hin. reflexivity. Qed.

Lemma turn_invalid (w : world) (s : string) (rest : list stdin_event) :
  stdin w = Line s :: rest ->
  PyInt.parse s = None ->
  dimension_turn ask Name things w
  = (Ret Continue,
     after w rest [Prompted ask; Printed "Please enter a valid number"]).
Proof.
  intros Hin Hparse. run_turn. rewrite Hin, Hparse. simpl.
  now rewrite <- List.app_assoc.
Qed.

Lemma turn_not_positive (w : world) (s : string) (v : Z)
    (rest : list stdin_event) :
  stdin w = Line s :: rest ->
  PyInt.parse s = Some v ->
  v <= 0 ->
  dimension_turn ask Name things w
  = (Ret Continue,
     after w rest [Prompted ask; Printed (Name ++ " must be greater than 0")]).
Proof.
  intros Hin Hparse Hv. run_turn. rewrite Hin, Hparse. simpl.
  apply Z.leb_le in Hv. rewrite Hv. simpl.
  now rewrite <- List.app_assoc.
Qed.

Lemma turn_small (w : world) (s : string) (v : Z) (rest : list stdin_event) :
  stdin w = Line s :: rest ->
  PyInt.parse s = Some v ->
  0 < v <= 1000 ->
  dimension_turn ask Name things w = (Ret (Break v), after w rest [Prompted ask]).
Proof.
  intros Hin Hparse [Hpos Hle]. run_turn. rewrite Hin, Hparse. simpl.
  apply Z.leb_gt in Hpos. rewrite Hpos.
  assert ((1000 <? v) = false) as -> by now apply Z.ltb_ge.
  reflexivity.
Qed.

Lemma turn_large_eof (w : world) (s : string) (v : Z) :
  stdin w = [Line s] ->
  PyInt.parse s = Some v ->
  1000 < v ->
  dimension_turn ask Name things w
  = (Raise EOFError,
     after w [] [Prompted ask; Prompted (large_prompt v things)]).
Proof.
  intros Hin Hparse Hv. run_turn. rewrite Hin, Hparse. simpl.
  assert ((v <=? 0) = false) as -> by (apply Z.leb_gt; lia).
  apply Z.ltb_lt in Hv. rewrite Hv. simpl.
  now rewrite <- List.app_assoc.
Qed.

Lemma turn_large_interrupt (w : world) (s : string) (v : Z)
    (rest : list stdin_event) :
  stdin w = Line s :: CtrlC :: rest ->
  PyInt.parse s = Some v ->
  1000 < v ->
  dimension_turn ask Name things w
  = (Raise KeyboardInterrupt,
     after w rest [Prompted ask; Prompted (large_prompt v things)]).
Proof.
  intros Hin Hparse Hv. run_turn. rewrite Hin, Hparse. simpl.
  assert ((v <=? 0) = false) as -> by (apply Z.leb_gt; lia).
  apply Z.ltb_lt in Hv. rewrite Hv. simpl.
  now rewrite <- List.app_assoc.
Qed.

Lemma turn_large_answer (w : world) (s c : string) (v : Z)
    (rest : list stdin_event) :
  stdin w = Line s :: Line c :: rest ->
  PyInt.parse s = Some v ->
  1000 < v ->
  dimension_turn ask Name things w
  = (if declines c then Ret Continue else Ret (Break v),
     after w rest [Prompted ask; Prompted (large_prompt v things)]).
Proof.
  intros Hin Hparse Hv. run_turn. rewrite Hin, Hparse. simpl.
  assert ((v <=? 0) = false) as -> by (apply Z.leb_gt; lia).
  apply Z.ltb_lt in Hv. rewrite Hv. simpl.
  rewrite <- List.app_assoc. now destruct (declines c).
Qed.

End Dimension.

(** Every turn is one of the steps. *)
Lemma turn_step_complete (ask Name things : string) (w : world) :
  turn_step ask Name things w (fst (dimension_turn ask Name things w))
                            (snd (dimension_turn ask Name things w)).
Proof.
  destruct (stdin w) as [|[s|] rest] eqn:Hin.
  - rewrite turn_eof by exact Hin. now constructor.
  - destruct (PyInt.parse s) as [v|] eqn:Hparse.
    + destruct (Z_le_gt_dec v 0) as [Hv|Hv].
      { erewrite turn_not_positive by eassumption. econstructor; eassumption. }
      destruct (Z_le_gt_dec v 1000) as [Hsmall|Hlarge].
      { erewrite turn_small by (eassumption || lia).
        econstructor; (eassumption || lia). }
      destruct rest as [|[c|] rest].
      * erewrite turn_large_eof by (eassumption || lia).
        econstructor; (eassumption || lia).
      * erewrite turn_large_answer by (eassumption || lia).
        destruct (declines c) eqn:Hc; simpl.
        -- eapply step_large_declined; (eassumption || lia).
        -- eapply step_large_confirmed; (eassumption || lia).
      * erewrite turn_large_interrupt by (eassumption || lia).
        econstructor; (eassumption || lia).
    + erewrite turn_invalid by eassumption. econstructor; eassumption.
  - erewrite turn_interrupt by eassumption. econstructor; eassumption.
Qed.

Lemma turn_step_of (ask Name things : string) (w w' : world)
    (r : outcome (loop_ctl Z)) :
  dimension_turn ask Name things w = (r, w') -> turn_step ask Name things w r w'.
Proof.
  intros E. pose proof (turn_step_complete ask Name things w) as H.
  now rewrite E in H.
Qed.

Lemma turn_reads (ask Name things : string) (w w' : world) :
  dimension_turn ask Name things w = (Ret Continue, w') ->
  (List.length (stdin w') < List.length (stdin w))%nat.
Proof.
  intros E. apply turn_step_of in E.
  inversion E as [| | ? ? Hin | ? ? ? Hin | | | | ? ? ? ? Hin |];
    rewrite Hin; simpl; lia.
Qed.

(** ** The dimension loops *)

Lemma console_run_refl (w : world) : console_run w w [] [].
Proof. unfold console_run. rewrite List.app_nil_r. auto. Qed.

Lemma console_run_after (w : world) (typed rest : list stdin_event)
    (shown : list stdout_event) :
  stdin w = (typed ++ rest)%list -> console_run w (after w rest shown) typed shown.
Proof. intros Hin. unfold console_run. simpl. auto. Qed.

Lemma console_run_trans (w1 w2 w3 : world) (typed1 typed2 : list stdin_event)
    (shown1 shown2 : list stdout_event) :
  console_run w1 w2 typed1 shown1 ->
  console_run w2 w3 typed2 shown2 ->
  console_run w1 w3 (typed1 ++ typed2) (shown1 ++ shown2).
Proof.
  intros (Hin1 & Hout1 & Hf1 & Ho1 & Hw1) (Hin2 & Hout2 & Hf2 & Ho2 & Hw2).
  unfold console_run.
  rewrite Hin1, Hin2, Hout2, Hout1, Hf2, Hf1, Ho2, Ho1, Hw2, Hw1.
  rewrite !List.app_assoc. auto.
Qed.

Lemma turn_step_console (ask Name things : string) (w w' : world)
    (r : outcome (loop_ctl Z)) :
  turn_step ask Name things w r w' ->
  exists typed shown, console_run w w' typed shown.
Proof.
  intros H; inversion H; subst; eexists _, _;
    apply console_run_after;
    match goal with Hin : stdin w = _ |- _ => rewrite Hin end.
  - instantiate (1 := []). reflexivity.
  - instantiate (1 := [CtrlC]). reflexivity.
  - instantiate (1 := [Line s]). reflexivity.
  - instantiate (1 := [Line s]). reflexivity.
  - instantiate (1 := [Line s]). reflexivity.
  - instantiate (1 := [Line s]). reflexivity.
  - instantiate (1 := [Line s; CtrlC]). reflexivity.
  - instantiate (1 := [Line s; Line c]). reflexivity.
  - instantiate (1 := [Line s; Line c]). reflexivity.
Qed.

Section DimensionLoop.
Variables ask Name things : string.

Lemma read_dimension_turn (w : world) :
  read_dimension ask Name things w
  = match dimension_turn ask Name things w with
    | (Ret Continue, w') => read_dimension ask Name things w'
    | (Ret (Break v), w') => (Ret v, w')
    | (Raise e, w') => (Raise e, w')
    | (OutOfFuel, w') => (OutOfFuel, w')
    end.
Proof. apply while_input_turn, turn_reads. Qed.

(** What holds of every step and composes holds of the loop. *)
Lemma read_dimension_ind (P : world -> outcome Z -> world -> Prop) :
  (forall w v w', turn_step ask Name things w (Ret (Break v)) w' -> P w (Ret v) w') ->
  (forall w e w', turn_step ask Name things w (Raise e) w' -> P w (Raise e) w') ->
  (forall w w1 r w',
      turn_step ask Name things w (Ret Continue) w1 -> P w1 r w' -> P w r w') ->
  forall w r w', read_dimension ask Name things w = (r, w') -> P w r w'.
Proof.
  intros Hbreak Hraise Hcont w r w' E.
  pose proof (while_input_ind (dimension_turn ask Name things)
                (turn_reads ask Name things) P) as H.
  change (while_input (dimension_turn ask Name things))
    with (read_dimension ask Name things) in H.
  specialize (H (fun w a w' E => Hbreak w a w' (turn_step_of _ _ _ _ _ _ E))).
  specialize (H (fun w e w' E => Hraise w e w' (turn_step_of _ _ _ _ _ _ E))).
  rewrite <- (f_equal fst E : _ = r), <- (f_equal snd E : _ = w').
  apply H.
  - intros w0 w0' E0. apply turn_step_of in E0. inversion E0.
  - intros w0 w1 r0 w0' E0. apply Hcont. now apply turn_step_of.
Qed.

Lemma read_dimension_console (w w' : world) (r : outcome Z) :
  read_dimension ask Name things w = (r, w') ->
  exists typed shown, console_run w w' typed shown.
Proof.
  apply (read_dimension_ind (fun w r w' =>
           exists typed shown, console_run w w' typed shown)).
  - intros w0 v w0' H. eapply turn_step_console, H.
  - intros w0 e w0' H. eapply turn_step_console, H.
  - intros w0 w1 r0 w0' H (typed2 & shown2 & H2).
    apply turn_step_console in H as (typed1 & shown1 & H1).
    eexists _, _. eapply console_run_trans; eassumption.
Qed.

(** The loop ends with a positive value, or because the input ended or
    was interrupted; nothing else leaves it. *)
Lemma read_dimension_outcome (w w' : world) (r : outcome Z) :
  read_dimension ask Name things w = (r, w') ->
  match r with
  | Ret v => 0 < v
  | Raise e => e = EOFError \/ e = KeyboardInterrupt
  | OutOfFuel => False
  end.
Proof.
  apply (read_dimension_ind (fun _ r _ =>
           match r with
           | Ret v => 0 < v
           | Raise e => e = EOFError \/ e = KeyboardInterrupt
           | OutOfFuel => False
           end)).
  - intros w0 v w0' H. inversion H; lia.
  - intros w0 e w0' H. inversion H; auto.
  - intros w0 w1 r0 w0' _ H. exact H.
Qed.

(** The value the loop returns was typed on the last line read, or on
    the last but one when it is large, and then the last line is the
    user's assent. *)
Lemma read_dimension_accepts (w w' : world) (v : Z) :
  read_dimension ask Name things w = (Ret v, w') ->
  exists (before : list stdin_event) (s : string),
    PyInt.parse s = Some v
    /\ ((0 < v <= 1000 /\ stdin w = (before ++ Line s :: stdin w')%list)
        \/ (1000 < v
            /\ exists c : string,
                 stdin w = (before ++ Line s :: Line c :: stdin w')%list
                 /\ declines c = false
                 /\ exists shown,
                      stdout w'
                      = (stdout w ++ shown
                         ++ [Prompted (large_prompt v things)])%list)).
Proof.
  apply (read_dimension_ind (fun w r w' =>
           match r with
           | Ret v =>
               exists (before : list stdin_event) (s : string),
                 PyInt.parse s = Some v
                 /\ ((0 < v <= 1000
                      /\ stdin w = (before ++ Line s :: stdin w')%list)
                     \/ (1000 < v
                         /\ exists c : string,
                              stdin w
                              = (before ++ Line s :: Line c :: stdin w')%list
                              /\ declines c = false
                              /\ exists shown,
                                   stdout w'
                                   = (stdout w ++ shown
                                      ++ [Prompted (large_prompt v things)])%list))
           | _ => True
           end)).
  - intros w0 v0 w0' H. inversion H as [| | | | s v1 rest Hin Hp Hv | | | |
                                        s c v1 rest Hin Hp Hv Hc]; subst.
    + exists [], s. split; [exact Hp|]. left. split; [exact Hv|]. exact Hin.
    + exists [], s. split; [exact Hp|]. right. split; [exact Hv|].
      exists c. split; [exact Hin|]. split; [exact Hc|].
      exists [Prompted ask]. reflexivity.
  - intros; exact I.
  - intros w0 w1 [v0| |] w0' H IH; try exact I.
    destruct IH as (before & s & Hp & IH).
    apply turn_step_console in H as (typed & shown1 & Hin & Hout & _).
    exists (typed ++ before)%list, s. split; [exact Hp|].
    rewrite Hin.
    destruct IH as [[Hv E]|(Hv & c & E & Hc & shown & Hshown)].
    + left. split; [exact Hv|]. now rewrite E, <- List.app_assoc.
    + right. split; [exact Hv|]. exists c.
      split; [now rewrite E, <- List.app_assoc|].
      split; [exact Hc|]. exists (shown1 ++ shown)%list.
      rewrite Hshown, Hout, <- !List.app_assoc. reflexivity.
Qed.


Lemma read_dimension_not_positive (w : world) (s : string) (v : Z)
    (rest : list stdin_event) :
  stdin w = Line s :: rest ->
  PyInt.parse s = Some v ->
  v <= 0 ->
  read_dimension ask Name things w
  = read_dimension ask Name things
      (after w rest [Prompted ask; Printed (Name ++ " must be greater than 0")]).
Proof.
  intros Hin Hp Hv.
  now rewrite read_dimension_turn, (turn_not_positive _ _ _ _ _ _ _ Hin Hp Hv).
Qed.

Lemma read_dimension_small (w : world) (s : string) (v : Z)
    (rest : list stdin_event) :
  stdin w = Line s :: rest ->
  PyInt.parse s = Some v ->
  0 < v <= 1000 ->
  read_dimension ask Name things w = (Ret v, after w rest [Prompted ask]).
Proof.
  intros Hin Hp Hv.
  now rewrite read_dimension_turn, (turn_small _ _ _ _ _ _ _ Hin Hp Hv).
Qed.

Lemma read_dimension_large (w : world) (s c : string) (v : Z)
    (rest : list stdin_event) :
  stdin w = Line s :: Line c :: rest ->
  PyInt.parse s = Some v ->
  1000 < v ->
  read_dimension ask Name things w
  = if declines c
    then read_dimension ask Name things
           (after w rest [Prompted ask; Prompted (large_prompt v things)])
    else (Ret v, after w rest [Prompted ask; Prompted (large_prompt v things)]).
Proof.
  intros Hin Hp Hv.
  rewrite read_dimension_turn, (turn_large_answer _ _ _ _ _ _ _ _ Hin Hp Hv).
  now destruct (declines c).
Qed.

End DimensionLoop.

(** Every turn, and so every run of the loop, begins by showing the
    prompt. *)
Lemma read_dimension_prompts (ask Name things : string) (w w' : world)
    (r : outcome Z) :
  read_dimension ask Name things w = (r, w') ->
  exists shown, stdout w' = (stdout w ++ Prompted ask :: shown)%list.
Proof.
  apply (read_dimension_ind ask Name things (fun w _ w' =>
           exists shown, stdout w' = (stdout w ++ Prompted ask :: shown)%list)).
  - intros w0 v w0' H. inversion H; subst; eexists; reflexivity.
  - intros w0 e w0' H. inversion H; subst; eexists; reflexivity.
  - intros w0 w1 r0 w0' H (shown2 & E2).
    assert (exists shown1, stdout w1 = (stdout w0 ++ Prompted ask :: shown1)%list)
      as (shown1 & E1) by (inversion H; subst; eexists; reflexivity).
    exists (shown1 ++ Prompted ask :: shown2)%list.
    rewrite E2, E1, <- List.app_assoc. reflexivity.
Qed.

(** C6: a value from 1 to 1000 is accepted as soon as it is read, with no
    further question.  A value above 1000 is followed by the yes/no
    question; an answer that declines sends the loop back to its prompt,
    any other answer accepts the value.  So a value above 1000 is only
    ever returned right after the user has assented to it.  This holds of
    the width loop and of the height loop, which are [read_dimension]
    with their own texts. *)
Theorem large_dimension_needs_assent (ask Name things : string) :
  (forall (w : world) (s : string) (v : Z) (rest : list stdin_event),
      stdin w = Line s :: rest ->
      PyInt.parse s = Some v ->
      0 < v <= 1000 ->
      read_dimension ask Name things w = (Ret v, after w rest [Prompted ask]))
  /\ (forall (w : world) (s c : string) (v : Z) (rest : list stdin_event),
        stdin w = Line s :: Line c :: rest ->
        PyInt.parse s = Some v ->
        1000 < v ->
        read_dimension ask Name things w
        = if declines c
          then read_dimension ask Name things
                 (after w rest [Prompted ask; Prompted (large_prompt v things)])
          else (Ret v,
                after w rest [Prompted ask; Prompted (large_prompt v things)]))
  /\ (forall (w w' : world) (r : outcome Z),
        read_dimension ask Name things w = (r, w') ->
        exists shown, stdout w' = (stdout w ++ Prompted ask :: shown)%list)
  /\ (forall (w w' : world) (v : Z),
        read_dimension ask Name things w = (Ret v, w') ->
        1000 < v ->
        exists (before : list stdin_event) (s c : string),
          stdin w = (before ++ Line s :: Line c :: stdin w')%list
          /\ PyInt.parse s = Some v
          /\ declines c = false
          /\ exists shown,
               stdout w'
               = (stdout w ++ shown ++ [Prompted (large_prompt v things)])%list).
Proof.
  split; [apply read_dimension_small|].
  split; [apply read_dimension_large|].
  split; [apply read_dimension_prompts|].
  intros w w' v E Hv.
  destruct (read_dimension_accepts _ _ _ _ _ _ E) as (before & s & Hp & [[H _]|H]);
    [lia|].
  destruct H as (_ & c & Hin & Hc & Hshown). now exists before, s, c.
Qed.

Lemma large_dimension_needs_assent_witness :
  read_width (quiet_world [Line "12"])
  = (Ret 12, after (quiet_world [Line "12"]) []
               [Prompted "Enter grid width (columns): "])
  /\ read_width (quiet_world [Line "1200"; Line "n"; Line "7"])
     = read_width (after (quiet_world [Line "1200"; Line "n"; Line "7"])
                     [Line "7"]
                     [Prompted "Enter grid width (columns): ";
                      Prompted (large_prompt 1200 "columns")])
  /\ read_height (quiet_world [Line "1200"; Line "Y"])
     = (Ret 1200, after (quiet_world [Line "1200"; Line "Y"]) []
                    [Prompted "Enter grid height (rows): ";
                     Prompted (large_prompt 1200 "rows")]).
Proof.
  split; [|split].
  - apply (proj1 (large_dimension_needs_assent
                    "Enter grid width (columns): " "Width" "columns")
             _ "12" 12 []); [reflexivity | reflexivity | lia].
  - apply (proj1 (proj2 (large_dimension_needs_assent
                    "Enter grid width (columns): " "Width" "columns"))
             _ "1200" "n" 1200 [Line "7"]); [reflexivity | reflexivity | lia].
  - apply (proj1 (proj2 (large_dimension_needs_assent
                    "Enter grid height (rows): " "Height" "rows"))
             _ "1200" "Y" 1200 []); [reflexivity | reflexivity | lia].
Defined.



(** ** The prompt as a whole *)

Lemma ask_dimensions_banner (w : world) :
  ask_dimensions w
  = (width <- read_width;; height <- read_height;; ret (width, height))
      (after w (stdin w) banner).
Proof.
  unfold ask_dimensions, bind, print, ret, set_stdout, after, banner. simpl.
  rewrite <- !List.app_assoc. reflexivity.
Qed.

Lemma ask_dimensions_console (w w' : world) (r : outcome (Z * Z)) :
  ask_dimensions w = (r, w') ->
  exists typed shown, console_run w w' typed shown.
Proof.
  rewrite ask_dimensions_banner. unfold bind, ret.
  pose proof (console_run_after w [] (stdin w) banner eq_refl) as H0.
  destruct (read_width _) as [[width|e|] w1] eqn:E1;
    apply read_dimension_console in E1 as (typed1 & shown1 & H1).
  - destruct (read_height w1) as [[height|e|] w2] eqn:E2;
      apply read_dimension_console in E2 as (typed2 & shown2 & H2);
      intros [= <- <-]; eexists _, _;
      (eapply console_run_trans; [eapply console_run_trans|]; eassumption).
  - intros [= <- <-]. eexists _, _. eapply console_run_trans; eassumption.
  - intros [= <- <-]. eexists _, _. eapply console_run_trans; eassumption.
Qed.

(** The dimensions the loops hand over are positive. *)
Lemma ask_dimensions_positive (w w' : world) (width height : Z) :
  ask_dimensions w = (Ret (width, height), w') -> 0 < width /\ 0 < height.
Proof.
  rewrite ask_dimensions_banner. unfold bind, ret.
  destruct (read_width _) as [[width'|e|] w1] eqn:E1; try discriminate.
  destruct (read_height w1) as [[height'|e|] w2] eqn:E2; try discriminate.
  intros [= <- <- <-].
  apply read_dimension_outcome in E1, E2. auto.
Qed.

Section AfterDimensions.
Variables (w0 w2 : world) (width height : Z).
Hypothesis dimensions : ask_dimensions w0 = (Ret (width, height), w2).

(** Both remaining prompts are answered. *)
Lemma get_user_input_answered (answer c : string) (rest : list stdin_event) :
  stdin w2 = Line answer :: Line c :: rest ->
  get_user_input w0
  = (if declines c then Ret None
     else Ret (Some (width, height, chosen_filename width height answer)),
     after w2 rest
       (filename_dialogue width height
        ++ summary width height (chosen_filename width height answer)
        ++ if declines c then [Printed "Operation cancelled"] else [])).
Proof.
  intros Hin. revert dimensions. run_prompt.
  destruct (read_width _) as [[width'|e|] w1]; try discriminate.
  destruct (read_height w1) as [[height'|e|] w2']; try discriminate.
  intros [= -> -> ->].
  unfold input. simpl. rewrite Hin. simpl.
  unfold after, chosen_filename.
  destruct (declines c); simpl; rewrite <- !List.app_assoc; reflexivity.
Qed.

(** The user interrupts at the last prompt. *)
Lemma get_user_input_interrupted (answer : string) (rest : list stdin_event) :
  stdin w2 = Line answer :: CtrlC :: rest ->
  get_user_input w0
  = (Ret None,
     after w2 rest
       (filename_dialogue width height
        ++ summary width height (chosen_filename width height answer)
        ++ [Printed (Py.nl ++ "Operation cancelled by user")])).
Proof.
  intros Hin. revert dimensions. run_prompt.
  destruct (read_width _) as [[width'|e|] w1]; try discriminate.
  destruct (read_height w1) as [[height'|e|] w2']; try discriminate.
  intros [= -> -> ->].
  unfold input. simpl. rewrite Hin. simpl.
  unfold after, chosen_filename.
  rewrite <- !List.app_assoc; reflexivity.
Qed.

End AfterDimensions.

(** ** The driver *)

Lemma main_cancelled (w0 w1 : world) :
  get_user_input w0 = (Ret None, w1) ->
  main w0 = (Ret tt, after w1 (stdin w1) [Printed "Goodbye!"]).
Proof.
  intros E. unfold main, try_except, bind. rewrite E. reflexivity.
Qed.


(** ** Answers *)

Lemma lower_char_y (ch : ascii) :
  Py.lower_char ch = "y"%char -> ch = "y"%char \/ ch = "Y"%char.
Proof.
  destruct ch as [[] [] [] [] [] [] [] []]; intros H; vm_compute in H;
    first [discriminate H | now left | now right].
Qed.

Lemma lower_y (c : string) : Py.lower c = "y" <-> c = "y" \/ c = "Y".
Proof.
  split.
  - destruct c as [|ch t]; simpl; [discriminate|].
    intros [= Hch Ht]. destruct t; [|discriminate].
    destruct (lower_char_y ch Hch) as [-> | ->]; auto.
  - intros [-> | ->]; reflexivity.
Qed.

Lemma declines_lower (c : string) : declines c = false <-> Py.lower c = "y".
Proof.
  unfold declines. rewrite negb_false_iff. apply String.eqb_eq.
Qed.

Lemma declines_spec (c : string) : declines c = false <-> c = "y" \/ c = "Y".
Proof. rewrite declines_lower. apply lower_y. Qed.

Lemma declines_other (c : string) : c <> "y" -> c <> "Y" -> declines c = true.
Proof.
  intros Hy HY. destruct (declines c) eqn:E; [reflexivity|].
  apply declines_spec in E as [-> | ->]; contradiction.
Qed.





(** C4, as the claim has it, fails: the answer [Y] is not [y], yet the
    prompt hands over its values and the driver has the file written. *)
Lemma capital_Y_creates_the_file :
  "Y" <> "y"
  /\ fst (get_user_input
            (quiet_world [Line "3"; Line "2"; Line "test"; Line "Y"]))
     = Ret (Some (3, 2, "test"))
  /\ files (snd (main (quiet_world [Line "3"; Line "2"; Line "test"; Line "Y"])))
     <> files (quiet_world [Line "3"; Line "2"; Line "test"; Line "Y"]).
Proof.
  split; [discriminate|]. split; [vm_compute; reflexivity|].
  intros E.
  apply (f_equal (fun m : gmap string string => m !! "test.csv")) in E.
  vm_compute in E. discriminate E.
Qed.

(** C4, amended: when the answer to the last question is neither [y] nor
    [Y], or the user interrupts there, [get_user_input] returns its
    no-values result; the driver then prints its farewell and does
    nothing else, so no file is created or changed. *)
Theorem declined_confirmation_writes_nothing (w0 w2 : world) (width height : Z)
    (answer : string) (last : stdin_event) (rest : list stdin_event) :
  ask_dimensions w0 = (Ret (width, height), w2) ->
  stdin w2 = Line answer :: last :: rest ->
  last = CtrlC \/ (exists c, last = Line c /\ c <> "y" /\ c <> "Y") ->
  exists w3 : world,
    get_user_input w0 = (Ret None, w3)
    /\ main w0 = (Ret tt, after w3 (stdin w3) [Printed "Goodbye!"])
    /\ files w3 = files w0
    /\ files (snd (main w0)) = files w0.
Proof.
  intros dimensions Hin Hlast.
  destruct (ask_dimensions_console _ _ _ dimensions)
    as (typed & shown & _ & _ & Hfiles & _).
  assert (exists w3, get_user_input w0 = (Ret None, w3) /\ files w3 = files w2)
    as (w3 & E & Hfiles3).
  { destruct Hlast as [-> | (c & -> & Hy & HY)].
    - eexists. split.
      + eapply get_user_input_interrupted; eassumption.
      + reflexivity.
    - eexists. split.
      + erewrite get_user_input_answered by eassumption.
        rewrite (declines_other c Hy HY). reflexivity.
      + reflexivity. }
  exists w3. split; [exact E|].
  rewrite (main_cancelled _ _ E). simpl.
  split; [reflexivity|]. split; congruence.
Qed.

Lemma declined_confirmation_writes_nothing_witness :
  exists w3 : world,
    get_user_input (quiet_world [Line "3"; Line "2"; Line "test"; Line "no"])
    = (Ret None, w3)
    /\ main (quiet_world [Line "3"; Line "2"; Line "test"; Line "no"])
       = (Ret tt, after w3 (stdin w3) [Printed "Goodbye!"])
    /\ files w3 = ∅
    /\ files (snd (main (quiet_world
                           [Line "3"; Line "2"; Line "test"; Line "no"])))
       = ∅.
Proof.
  apply (declined_confirmation_writes_nothing
           (quiet_world [Line "3"; Line "2"; Line "test"; Line "no"])
           (snd (ask_dimensions
                   (quiet_world [Line "3"; Line "2"; Line "test"; Line "no"])))
           3 2 "test" (Line "no") []).
  - vm_compute. reflexivity.
  - vm_compute. reflexivity.
  - right. exists "no". repeat split; discriminate.
Defined.






(** C10: at the question put for a large dimension and at the last
    question alike, the answer assents exactly when its lower-case form
    is [y], that is when it is [y] or [Y]; [yes], [Y es] and the empty
    answer decline. *)
Theorem only_y_assents :
  (forall c : string, declines c = false <-> Py.lower c = "y")
  /\ (forall c : string, declines c = false <-> c = "y" \/ c = "Y")
  /\ declines "y" = false /\ declines "Y" = false
  /\ declines "yes" = true /\ declines "Y es" = true
  /\ declines EmptyString = true
  /\ (forall (ask Name things : string) (w : world) (s c : string) (v : Z)
             (rest : list stdin_event),
        stdin w = Line s :: Line c :: rest ->
        PyInt.parse s = Some v ->
        1000 < v ->
        read_dimension ask Name things w
        = if declines c
          then read_dimension ask Name things
                 (after w rest [Prompted ask; Prompted (large_prompt v things)])
          else (Ret v,
                after w rest [Prompted ask; Prompted (large_prompt v things)]))
  /\ (forall (w0 w2 : world) (width height : Z) (answer c : string)
             (rest : list stdin_event),
        ask_dimensions w0 = (Ret (width, height), w2) ->
        stdin w2 = Line answer :: Line c :: rest ->
        get_user_input w0
        = (if declines c then Ret None
           else Ret (Some (width, height, chosen_filename width height answer)),
           after w2 rest
             (filename_dialogue width height
              ++ summary width height (chosen_filename width height answer)
              ++ if declines c then [Printed "Operation cancelled"] else []))).
Proof.
  split; [apply declines_lower|].
  split; [apply declines_spec|].
  do 5 (split; [reflexivity|]).
  split; [apply read_dimension_large|].
  intros w0 w2 width height answer c rest dimensions Hin.
  now apply get_user_input_answered.
Qed.

Lemma only_y_assents_witness :
  read_width (quiet_world [Line "1200"; Line "yes"])
  = read_width (after (quiet_world [Line "1200"; Line "yes"]) []
                  [Prompted "Enter grid width (columns): ";
                   Prompted (large_prompt 1200 "columns")])
  /\ fst (get_user_input (quiet_world [Line "3"; Line "2"; Line "test"; Line "Y"]))
     = Ret (Some (3, 2, "test")).
Proof.
  destruct only_y_assents as (_ & _ & _ & _ & _ & _ & _ & Hlarge & Hlast).
  split.
  - apply (Hlarge "Enter grid width (columns): " "Width" "columns"
             _ "1200" "yes" 1200 []); [reflexivity | reflexivity | lia].
  - rewrite (Hlast (quiet_world [Line "3"; Line "2"; Line "test"; Line "Y"])
               (snd (ask_dimensions
                       (quiet_world [Line "3"; Line "2"; Line "test"; Line "Y"])))
               3 2 "test" "Y" []);
      [reflexivity | vm_compute; reflexivity | vm_compute; reflexivity].
Defined.

(** The bound on the loops is never met, and the driver always ends
    normally. *)
Lemma get_user_input_ends (w : world) : fst (get_user_input w) <> OutOfFuel.
Proof.
  run_prompt.
  destruct (read_width _) as [[width|e|] w1] eqn:E1;
    [ | destruct e; simpl; discriminate
      | now apply read_dimension_outcome in E1 ].
  destruct (read_height w1) as [[height|e|] w2] eqn:E2;
    [ | destruct e; simpl; discriminate
      | now apply read_dimension_outcome in E2 ].
  unfold input. simpl.
  destruct (stdin w2) as [|[answer|] [|[c|] rest]]; simpl; try discriminate.
  destruct (declines c); simpl; discriminate.
Qed.

Lemma main_returns (w : world) : exists w' : world, main w = (Ret tt, w').
Proof.
  unfold main, try_except, bind.
  pose proof (get_user_input_ends w) as Hends.
  destruct (get_user_input w) as [[[[[width height] filename]|]|e|] w1].
  - destruct (create_grid_csv_returns width height filename w1)
      as (b & w' & -> & _).
    eexists. reflexivity.
  - eexists. reflexivity.
  - destruct e; eexists; reflexivity.
  - now destruct Hends.
Qed.

(** * Further properties *)

(** ** The Grid Writer, beyond the claims *)





(** X11: Writing replaces: a grid written to a name that an earlier call has
    written to leaves the disk as if the earlier call had not been made. *)
Theorem writer_replaces_earlier_file (width height width0 height0 : Z)
    (filename : string) (w : world) :
  no_fault w (csv_name filename) ->
  files (snd (create_grid_csv width height filename
                (snd (create_grid_csv width0 height0 filename w))))
  = files (snd (create_grid_csv width height filename w)).
Proof.
  intros Hok.
  rewrite (create_grid_csv_ok width0 height0 filename w Hok). simpl.
  rewrite !create_grid_csv_ok by exact Hok. simpl.
  apply insert_insert_eq.
Qed.

Lemma writer_replaces_earlier_file_witness :
  files (snd (create_grid_csv 3 2 "test"
                (snd (create_grid_csv 9 9 "test" (quiet_world [])))))
  = files (snd (create_grid_csv 3 2 "test" (quiet_world []))).
Proof.
  apply (writer_replaces_earlier_file 3 2 9 9 "test" (quiet_world [])).
  split; reflexivity.
Defined.

(** ** How the prompt ends *)

(** A dimension loop that raises was interrupted, and then the interrupt
    is the last thing it read, or it met the end of the input. *)
Lemma read_dimension_raises (ask Name things : string) (w w' : world) (e : exn) :
  read_dimension ask Name things w = (Raise e, w') ->
  (e = KeyboardInterrupt
   /\ exists before, stdin w = (before ++ CtrlC :: stdin w')%list)
  \/ (e = EOFError /\ stdin w' = []).
Proof.
  apply (read_dimension_ind ask Name things (fun w r w' =>
           match r with
           | Raise e =>
               (e = KeyboardInterrupt
                /\ exists before, stdin w = (before ++ CtrlC :: stdin w')%list)
               \/ (e = EOFError /\ stdin w' = [])
           | _ => True
           end)).
  - intros; exact I.
  - intros w0 e0 w0' H.
    inversion H as [Hin | rest Hin | | | | s v Hin | s v rest Hin | |]; subst.
    + right. auto.
    + left. split; [reflexivity|]. now exists [].
    + right. auto.
    + left. split; [reflexivity|]. now exists [Line s].
  - intros w0 w1 [v| e0 |] w0' H IH; try exact I.
    destruct IH as [(-> & before & E)|IH]; [|now right].
    left. split; [reflexivity|].
    apply turn_step_console in H as (typed & shown & Hin & _).
    exists (typed ++ before)%list. now rewrite Hin, E, <- List.app_assoc.
Qed.

Lemma ask_dimensions_raises (w w' : world) (e : exn) :
  ask_dimensions w = (Raise e, w') ->
  (e = KeyboardInterrupt
   /\ exists before, stdin w = (before ++ CtrlC :: stdin w')%list)
  \/ (e = EOFError /\ stdin w' = []).
Proof.
  rewrite ask_dimensions_banner. unfold bind, ret.
  destruct (read_width _) as [[width|e1|] w1] eqn:E1.
  - destruct (read_height w1) as [[height|e2|] w2] eqn:E2; try discriminate.
    intros [= <- <-].
    apply read_dimension_console in E1 as (typed & shown & Hin & _).
    apply read_dimension_raises in E2 as [(-> & before & E)|H]; [|now right].
    left. split; [reflexivity|]. simpl in Hin.
    exists (typed ++ before)%list. now rewrite Hin, E, <- List.app_assoc.
  - intros [= <- <-]. apply read_dimension_raises in E1. exact E1.
  - discriminate.
Qed.

Lemma ask_dimensions_ends (w : world) : fst (ask_dimensions w) <> OutOfFuel.
Proof.
  rewrite ask_dimensions_banner. unfold bind, ret.
  destruct (read_width _) as [[width|e1|] w1] eqn:E1;
    [ | simpl; discriminate | now apply read_dimension_outcome in E1 ].
  destruct (read_height w1) as [[height|e2|] w2] eqn:E2;
    [ simpl; discriminate | simpl; discriminate
      | now apply read_dimension_outcome in E2 ].
Qed.

(** What [get_user_input] does once the dimension loops have ended. *)
Lemma get_user_input_after_raise (w0 w1 : world) (e : exn) :
  ask_dimensions w0 = (Raise e, w1) ->
  get_user_input w0
  = if is_KeyboardInterrupt e
    then (Ret None,
          after w1 (stdin w1) [Printed (Py.nl ++ "Operation cancelled by user")])
    else (Raise e, w1).
Proof.
  run_prompt.
  destruct (read_width _) as [[width'|e1|] w1'].
  - destruct (read_height w1') as [[height'|e2|] w2']; try discriminate.
    intros [= -> ->]. now destruct e.
  - intros [= -> ->]. now destruct e.
  - discriminate.
Qed.

Lemma get_user_input_short (w0 w2 : world) (width height : Z) :
  ask_dimensions w0 = (Ret (width, height), w2) ->
  (stdin w2 = [] ->
   get_user_input w0
   = (Raise EOFError, after w2 [] (filename_dialogue width height)))
  /\ (forall rest,
        stdin w2 = CtrlC :: rest ->
        get_user_input w0
        = (Ret None,
           after w2 rest
             (filename_dialogue width height
              ++ [Printed (Py.nl ++ "Operation cancelled by user")])))
  /\ (forall answer,
        stdin w2 = [Line answer] ->
        get_user_input w0
        = (Raise EOFError,
           after w2 []
             (filename_dialogue width height
              ++ summary width height (chosen_filename width height answer)))).
Proof.
  intros dimensions. split; [|split].
  - intros Hin. revert dimensions. run_prompt.
    destruct (read_width _) as [[width'|e|] w1]; try discriminate.
    destruct (read_height w1) as [[height'|e|] w2']; try discriminate.
    intros [= -> -> ->].
    unfold input. simpl. rewrite Hin. simpl.
    unfold after, set_stdout. cbn [stdin stdout files open_fault write_fault].
    rewrite Hin, <- !List.app_assoc. reflexivity.
  - intros rest Hin. revert dimensions. run_prompt.
    destruct (read_width _) as [[width'|e|] w1]; try discriminate.
    destruct (read_height w1) as [[height'|e|] w2']; try discriminate.
    intros [= -> -> ->].
    unfold input. simpl. rewrite Hin. simpl.
    unfold after. rewrite <- !List.app_assoc. reflexivity.
  - intros answer Hin. revert dimensions. run_prompt.
    destruct (read_width _) as [[width'|e|] w1]; try discriminate.
    destruct (read_height w1) as [[height'|e|] w2']; try discriminate.
    intros [= -> -> ->].
    unfold input. simpl. rewrite Hin. simpl.
    unfold after, chosen_filename, set_stdout.
    cbn [stdin stdout files open_fault write_fault].
    rewrite <- !List.app_assoc. reflexivity.
Qed.

(** Every run of [get_user_input] is one of the runs of [prompt_run]. *)
Lemma prompt_run_complete (w : world) :
  prompt_run w (fst (get_user_input w)) (snd (get_user_input w)).
Proof.
  pose proof (ask_dimensions_ends w) as Hends.
  destruct (ask_dimensions w) as [[[width height]|e|] w1] eqn:E;
    [ | | now destruct Hends ].
  - destruct (get_user_input_short _ _ _ _ E) as (Heof & Hint & Hone).
    destruct (stdin w1) as [|[answer|] rest] eqn:Hin.
    + rewrite Heof by reflexivity. now apply run_filename_eof.
    + destruct rest as [|[c|] rest].
      * rewrite Hone with (answer := answer) by reflexivity.
        now apply run_confirmation_eof.
      * rewrite (get_user_input_answered _ _ _ _ E _ _ _ Hin).
        destruct (declines c) eqn:Hc; cbv iota.
        -- eapply run_declined; eassumption.
        -- rewrite List.app_nil_r. eapply run_confirmed; eassumption.
      * rewrite (get_user_input_interrupted _ _ _ _ E _ _ Hin).
        now apply run_confirmation_interrupted.
    + rewrite Hint with (rest := rest) by reflexivity.
      now apply run_filename_interrupted.
  - rewrite (get_user_input_after_raise _ _ _ E).
    destruct (ask_dimensions_raises _ _ _ E) as [[-> _]|[-> _]]; simpl.
    + now apply run_dimensions_interrupted.
    + now apply run_dimensions_eof.
Qed.

Lemma prompt_run_of (w w' : world) (r : outcome (option (Z * Z * string))) :
  get_user_input w = (r, w') -> prompt_run w r w'.
Proof.
  intros E. pose proof (prompt_run_complete w) as H. now rewrite E in H.
Qed.



(** The dimension phase shows the opening lines and then the width
    prompt, whatever happens next, and uses nothing but the console. *)
Lemma ask_dimensions_shows (w w' : world) (r : outcome (Z * Z)) :
  ask_dimensions w = (r, w') ->
  exists typed shown,
    console_run w w' typed
      (banner ++ Prompted "Enter grid width (columns): " :: shown).
Proof.
  rewrite ask_dimensions_banner. unfold bind, ret.
  pose proof (console_run_after w [] (stdin w) banner eq_refl) as H0.
  assert (forall w1 r1,
             read_width (after w (stdin w) banner) = (r1, w1) ->
             exists typed shown,
               console_run w w1 typed
                 (banner ++ Prompted "Enter grid width (columns): " :: shown))
    as Hwidth.
  { intros w1 r1 E1.
    destruct (read_dimension_console _ _ _ _ _ _ E1) as (typed1 & shown1 & H1).
    destruct (read_dimension_prompts _ _ _ _ _ _ E1) as (shown & Hshown).
    assert (shown1 = Prompted "Enter grid width (columns): " :: shown) as ->.
    { destruct H1 as (_ & Hout & _). rewrite Hout in Hshown.
      now apply List.app_inv_head in Hshown. }
    exists typed1, shown. apply (console_run_trans _ _ _ _ _ _ _ H0 H1). }
  destruct (read_width _) as [[width|e|] w1] eqn:E1;
    destruct (Hwidth _ _ eq_refl) as (typed1 & shown1 & H1).
  - destruct (read_height w1) as [[height|e|] w2] eqn:E2;
      apply read_dimension_console in E2 as (typed2 & shown2 & H2);
      intros [= <- <-];
      exists (typed1 ++ typed2)%list, (shown1 ++ shown2)%list;
      pose proof (console_run_trans _ _ _ _ _ _ _ H1 H2) as H;
      now rewrite <- List.app_assoc in H.
  - intros [= <- <-]. now exists typed1, shown1.
  - intros [= <- <-]. now exists typed1, shown1.
Qed.

Lemma console_run_extend (w w1 : world) (typed typed' rest : list stdin_event)
    (before : list stdout_event) (first : stdout_event)
    (shown shown' : list stdout_event) :
  console_run w w1 typed (before ++ first :: shown) ->
  stdin w1 = (typed' ++ rest)%list ->
  console_run w (after w1 rest shown') (typed ++ typed')
    (before ++ first :: shown ++ shown').
Proof.
  intros H Hin.
  pose proof (console_run_trans _ _ _ _ _ _ _ H
                (console_run_after w1 typed' rest shown' Hin)) as H'.
  now rewrite <- List.app_assoc in H'.
Qed.

(** [get_user_input] uses nothing but the console; it always begins by
    showing the opening lines and the width prompt. *)
Lemma get_user_input_shows (w w' : world)
    (r : outcome (option (Z * Z * string))) :
  get_user_input w = (r, w') ->
  exists typed shown,
    console_run w w' typed
      (banner ++ Prompted "Enter grid width (columns): " :: shown).
Proof.
  intros E. apply prompt_run_of in E.
  inversion E as [w1 D | w1 D | width height w2 D Hin
                  | width height w2 rest D Hin
                  | width height w2 answer D Hin
                  | width height w2 answer rest D Hin
                  | width height w2 answer c rest D Hin Hc
                  | width height w2 answer c rest D Hin Hc]; subst;
    destruct (ask_dimensions_shows _ _ _ D) as (typed & shown & H).
  - eexists _, _. apply (console_run_extend _ _ _ [] _ _ _ _ _ H eq_refl).
  - now exists typed, shown.
  - eexists _, _. apply (console_run_extend _ _ _ [] _ _ _ _ _ H Hin).
  - eexists _, _. apply (console_run_extend _ _ _ [CtrlC] _ _ _ _ _ H Hin).
  - eexists _, _.
    apply (console_run_extend _ _ _ [Line answer] _ _ _ _ _ H Hin).
  - eexists _, _.
    apply (console_run_extend _ _ _ [Line answer; CtrlC] _ _ _ _ _ H Hin).
  - eexists _, _.
    apply (console_run_extend _ _ _ [Line answer; Line c] _ _ _ _ _ H Hin).
  - eexists _, _.
    apply (console_run_extend _ _ _ [Line answer; Line c] _ _ _ _ _ H Hin).
Qed.

Lemma chosen_filename_not_empty (width height : Z) (answer : string) :
  chosen_filename width height answer <> EmptyString.
Proof.
  unfold chosen_filename.
  destruct (String.eqb_spec (Py.strip answer) EmptyString) as [_|Hne];
    [discriminate | exact Hne].
Qed.


(** ** The prompt and the driver, beyond the claims *)

(** X1: A dimension of zero or less is not accepted: the loop says that the
    width, or the height, must be greater than 0 and asks again. *)
Theorem non_positive_dimension_reprompts (ask Name things : string)
    (w : world) (s : string) (v : Z) (rest : list stdin_event) :
  stdin w = Line s :: rest ->
  PyInt.parse s = Some v ->
  v <= 0 ->
  read_dimension ask Name things w
  = read_dimension ask Name things
      (after w rest [Prompted ask; Printed (Name ++ " must be greater than 0")]).
Proof. apply read_dimension_not_positive. Qed.

Lemma non_positive_dimension_reprompts_witness :
  read_height (quiet_world [Line "-4"; Line "4"])
  = read_height (after (quiet_world [Line "-4"; Line "4"]) [Line "4"]
                   [Prompted "Enter grid height (rows): ";
                    Printed "Height must be greater than 0"]).
Proof.
  apply (non_positive_dimension_reprompts
           "Enter grid height (rows): " "Height" "rows"
           (quiet_world [Line "-4"; Line "4"]) "-4" (-4) [Line "4"]);
    [reflexivity | reflexivity | lia].
Defined.

(** X2: However it ends, [get_user_input] has only used the console: it has
    read a first part of the keyboard input, has added to the screen,
    beginning with its opening lines and the width prompt, and has left
    the files and the disk as they were. *)
Theorem prompt_uses_only_the_console (w w' : world)
    (r : outcome (option (Z * Z * string))) :
  get_user_input w = (r, w') ->
  exists (typed : list stdin_event) (shown : list stdout_event),
    stdin w = (typed ++ stdin w')%list
    /\ stdout w'
       = (stdout w ++ banner
          ++ Prompted "Enter grid width (columns): " :: shown)%list
    /\ files w' = files w
    /\ open_fault w' = open_fault w
    /\ write_fault w' = write_fault w.
Proof.
  intros E. destruct (get_user_input_shows _ _ _ E) as (typed & shown & H).
  exists typed, shown. exact H.
Qed.

Lemma prompt_uses_only_the_console_witness :
  exists (typed : list stdin_event) (shown : list stdout_event),
    stdin (quiet_world [Line "3"; Line "2"; Line "test"; Line "n"; Line "more"])
    = (typed
       ++ stdin (snd (get_user_input
                        (quiet_world [Line "3"; Line "2"; Line "test"; Line "n"; Line "more"]))))%list
    /\ stdout (snd (get_user_input
                      (quiet_world [Line "3"; Line "2"; Line "test"; Line "n"; Line "more"])))
       = (stdout (quiet_world [Line "3"; Line "2"; Line "test"; Line "n"; Line "more"])
          ++ banner ++ Prompted "Enter grid width (columns): " :: shown)%list
    /\ files (snd (get_user_input
                     (quiet_world [Line "3"; Line "2"; Line "test"; Line "n"; Line "more"])))
       = files (quiet_world [Line "3"; Line "2"; Line "test"; Line "n"; Line "more"])
    /\ open_fault (snd (get_user_input
                          (quiet_world [Line "3"; Line "2"; Line "test"; Line "n"; Line "more"])))
       = open_fault (quiet_world [Line "3"; Line "2"; Line "test"; Line "n"; Line "more"])
    /\ write_fault (snd (get_user_input
                           (quiet_world [Line "3"; Line "2"; Line "test"; Line "n"; Line "more"])))
       = write_fault (quiet_world [Line "3"; Line "2"; Line "test"; Line "n"; Line "more"]).
Proof.
  apply (prompt_uses_only_the_console
           (quiet_world [Line "3"; Line "2"; Line "test"; Line "n"; Line "more"])
           (snd (get_user_input
                   (quiet_world [Line "3"; Line "2"; Line "test"; Line "n"; Line "more"])))
           (Ret None)).
  vm_compute. reflexivity.
Defined.




(** X4: What [get_user_input] hands over is fit for the writer: a positive
    width, a positive height and a file name that is not empty; and the
    last line it read is the user's assent, [y] or [Y]. *)
Theorem handed_over_values_are_valid (w w' : world) (width height : Z)
    (filename : string) :
  get_user_input w = (Ret (Some (width, height, filename)), w') ->
  0 < width
  /\ 0 < height
  /\ filename <> EmptyString
  /\ exists (before : list stdin_event) (c : string),
       stdin w = (before ++ Line c :: stdin w')%list
       /\ (c = "y" \/ c = "Y").
Proof.
  intros E. apply prompt_run_of in E.
  inversion E as [ | | | | | | | width' height' w2 answer c rest D Hin Hc];
    subst.
  destruct (ask_dimensions_positive _ _ _ _ D) as [Hw Hh].
  split; [exact Hw|]. split; [exact Hh|].
  split; [apply chosen_filename_not_empty|].
  destruct (ask_dimensions_console _ _ _ D) as (typed & shown & Hw0 & _).
  exists (typed ++ [Line answer])%list, c. split.
  - simpl. now rewrite Hw0, Hin, <- List.app_assoc.
  - now apply declines_spec.
Qed.

Lemma handed_over_values_are_valid_witness :
  0 < 1200
  /\ 0 < 2
  /\ "wide" <> EmptyString
  /\ exists (before : list stdin_event) (c : string),
       stdin (quiet_world [Line "1200"; Line "y"; Line "2"; Line " wide ";
                           Line "Y"])
       = (before
          ++ Line c
          :: stdin (snd (get_user_input
                           (quiet_world [Line "1200"; Line "y"; Line "2";
                                         Line " wide "; Line "Y"]))))%list
       /\ (c = "y" \/ c = "Y").
Proof.
  apply (handed_over_values_are_valid
           (quiet_world [Line "1200"; Line "y"; Line "2"; Line " wide ";
                         Line "Y"])).
  vm_compute. reflexivity.
Defined.

(** X5: When [get_user_input] returns its no-values result, the last thing
    it read is an interrupt or an answer that declines, the last thing it
    showed says that the operation was cancelled, and the driver adds its
    farewell and stops. *)
Theorem cancellation_is_announced (w w' : world) :
  get_user_input w = (Ret None, w') ->
  (exists (before : list stdin_event) (last : stdin_event)
          (shown : list stdout_event),
      stdin w = (before ++ last :: stdin w')%list
      /\ ((last = CtrlC
           /\ stdout w'
              = (shown ++ [Printed (Py.nl ++ "Operation cancelled by user")])%list)
          \/ (exists c, last = Line c /\ declines c = true
              /\ stdout w' = (shown ++ [Printed "Operation cancelled"])%list)))
  /\ main w = (Ret tt, after w' (stdin w') [Printed "Goodbye!"]).
Proof.
  intros E. split; [|now apply main_cancelled].
  apply prompt_run_of in E.
  inversion E as [w1 D | | | width height w2 rest D Hin |
                  | width height w2 answer rest D Hin
                  | width height w2 answer c rest D Hin Hc | ]; subst.
  - destruct (ask_dimensions_raises _ _ _ D) as [(_ & before & Hw)|[[=] _]].
    exists before, CtrlC, (stdout w1). split; [exact Hw|]. left. auto.
  - destruct (ask_dimensions_console _ _ _ D) as (typed & shown & Hw & _).
    exists typed, CtrlC, (stdout w2 ++ filename_dialogue width height)%list.
    split; [simpl; now rewrite Hw, Hin|].
    left. split; [reflexivity|].
    unfold after. cbn [stdout]. now rewrite !List.app_assoc.
  - destruct (ask_dimensions_console _ _ _ D) as (typed & shown & Hw & _).
    exists (typed ++ [Line answer])%list, CtrlC,
      (stdout w2 ++ filename_dialogue width height
       ++ summary width height (chosen_filename width height answer))%list.
    split; [simpl; now rewrite Hw, Hin, <- List.app_assoc|].
    left. split; [reflexivity|].
    unfold after. cbn [stdout]. now rewrite !List.app_assoc.
  - destruct (ask_dimensions_console _ _ _ D) as (typed & shown & Hw & _).
    exists (typed ++ [Line answer])%list, (Line c),
      (stdout w2 ++ filename_dialogue width height
       ++ summary width height (chosen_filename width height answer))%list.
    split; [simpl; now rewrite Hw, Hin, <- List.app_assoc|].
    right. exists c. split; [reflexivity|]. split; [exact Hc|].
    unfold after. cbn [stdout]. now rewrite !List.app_assoc.
Qed.

Lemma cancellation_is_announced_witness :
  (exists (before : list stdin_event) (last : stdin_event)
          (shown : list stdout_event),
      stdin (quiet_world [Line "3"; CtrlC; Line "2"])
      = (before
         ++ last
         :: stdin (after (quiet_world [Line "3"; CtrlC; Line "2"]) [Line "2"]
                     (banner
                      ++ [Prompted "Enter grid width (columns): ";
                          Prompted "Enter grid height (rows): ";
                          Printed (Py.nl ++ "Operation cancelled by user")])))%list
      /\ ((last = CtrlC
           /\ stdout (after (quiet_world [Line "3"; CtrlC; Line "2"]) [Line "2"]
                        (banner
                         ++ [Prompted "Enter grid width (columns): ";
                             Prompted "Enter grid height (rows): ";
                             Printed (Py.nl ++ "Operation cancelled by user")]))
              = (shown ++ [Printed (Py.nl ++ "Operation cancelled by user")])%list)
          \/ (exists c, last = Line c /\ declines c = true
              /\ stdout (after (quiet_world [Line "3"; CtrlC; Line "2"])
                           [Line "2"]
                           (banner
                            ++ [Prompted "Enter grid width (columns): ";
                                Prompted "Enter grid height (rows): ";
                                Printed (Py.nl ++ "Operation cancelled by user")]))
                 = (shown ++ [Printed "Operation cancelled"])%list)))
  /\ main (quiet_world [Line "3"; CtrlC; Line "2"])
     = (Ret tt,
        after (after (quiet_world [Line "3"; CtrlC; Line "2"]) [Line "2"]
                 (banner
                  ++ [Prompted "Enter grid width (columns): ";
                      Prompted "Enter grid height (rows): ";
                      Printed (Py.nl ++ "Operation cancelled by user")]))
          [Line "2"] [Printed "Goodbye!"]).
Proof.
  apply (cancellation_is_announced (quiet_world [Line "3"; CtrlC; Line "2"])).
  vm_compute. reflexivity.
Defined.

(** X7: Whatever is typed and whatever the disk does, the driver ends
    normally, having read a first part of the keyboard input, and no file
    whose name does not end in [.csv] has been created or changed. *)
Theorem driver_ends_and_spares_other_files (w : world) :
  exists w' : world,
    main w = (Ret tt, w')
    /\ (exists typed, stdin w = (typed ++ stdin w')%list)
    /\ forall path : string,
         Py.endswith path ".csv" = false -> files w' !! path = files w !! path.
Proof.
  unfold main, try_except, bind.
  pose proof (get_user_input_ends w) as Hends.
  destruct (get_user_input w) as [[[[[width height] filename]|]|e|] w1] eqn:E;
    destruct (get_user_input_shows _ _ _ E)
      as (typed & shown & Hin & _ & Hfiles & _).
  - destruct (create_grid_csv_returns width height filename w1)
      as (b & w' & -> & Hstdin & Hframe).
    eexists. split; [reflexivity|]. split; [exists typed; now rewrite Hstdin|].
    intros path Hpath. rewrite Hframe, Hfiles; [reflexivity|].
    intros ->. now rewrite csv_name_endswith in Hpath.
  - eexists. split; [reflexivity|]. split; [now exists typed|].
    intros path _. simpl. now rewrite Hfiles.
  - destruct e; (eexists; split; [reflexivity|]);
      (split; [now exists typed|]); intros path _; simpl; now rewrite Hfiles.
  - now destruct Hends.
Qed.



Lemma driver_ends_and_spares_other_files_witness :
  exists w' : world,
    main (quiet_world [Line "3"; Line "2"; Line "notes.txt"; Line "y"])
    = (Ret tt, w')
    /\ files w' !! "notes.txt" = None.
Proof.
  destruct (driver_ends_and_spares_other_files
              (quiet_world [Line "3"; Line "2"; Line "notes.txt"; Line "y"]))
    as (w' & E & _ & Hother).
  exists w'. split; [exact E|]. apply (Hother "notes.txt"). reflexivity.
Defined.




